(** * Statistics course notebooks: a verification development

    The repository holds four Jupyter notebooks (Feldman-Cousins intervals,
    the Monty Hall simulation, a neural network on the wine-quality data and
    a check of the Wilks theorem).  This file embeds

    - the text of every code cell, line by line, for the properties that are
      about what the scripts contain (gaps, imports, handlers, file access);
    - the functions the notebooks define ([mle], [px], the train/test split,
      the download cell, the pseudo-experiment loop, the Monty Hall game),
      over exact rationals where the Python code computes with floats, with
      the division by zero of Python numbers (an exception) and of numpy
      scalars (nan or an infinity) told apart.  *)

From Stdlib Require Import QArith ZArith Lia Lqa String Ascii List Bool Sorting.Sorted.
From stdpp Require Import gmap strings list.

#[global] Set Warnings "-clear-no-such-hyp".

Open Scope string_scope.

(** ** Text of the notebooks *)

Module Corpus.

(** The double-quote character, for the lines that contain one. *)
Definition dq : string := String (ascii_of_nat 34) EmptyString.

Definition feldman_cousins_cells : list (list string) :=
  [
    [ "import math";
      "import numpy as np";
      "%matplotlib inline";
      "from matplotlib import pyplot as plt" ];
    [ "# 1D Likelihood";
      EmptyString;
      "def sample_from_pdf(theta,N):";
      "    # Draw N toys from the gaussian pdf";
      "    return np.random.normal(loc=theta, scale=1.0, size=N)";
      EmptyString;
      EmptyString;
      "def lnL(x, theta):";
      "    return math.log(2*math.pi)-1/2.*(x-theta)**2";
      EmptyString;
      EmptyString;
      "def mle(x):";
      "    # This implements the boundary at zero";
      "    return max(0.,x)";
      EmptyString;
      "# here we already did the computation of the likelihood ratio (eq. 4.3 of the paper)";
      "def q(x, theta):";
      "    # The trick: ";
      "    #return math.exp(-(x-theta)**2/2.) if x>=0 else math.exp(x*theta -theta**2/2)";
      "    return -(x-theta)**2/2. if x>=0 else x*theta -theta**2/2" ];
    [ EmptyString;
      "def qdist(theta,measurements=None):";
      "    if measurements is None:";
      "        measurements=np.linspace(-2.,4., num=2000)";
      "    return [ q(x, theta) for x in measurements] ";
      EmptyString;
      "# Given this function, we also need a function to compute its integral";
      EmptyString;
      "def px(qdist,qobs,xspace=None,noprint=False):";
      "    # VERY crude integral";
      "    if xspace is None:";
      "        return(float(sum([ x for x in qdist if x >qobs])/sum(qdist)))";
      "    portion=[]";
      "    for i,x in zip(qdist,xspace):";
      "        if i>qobs:";
      "            portion.append(x)";
      EmptyString;
      "    return (portion[-1]-portion[0])/(xspace[-1]-xspace[0])" ];
    [ "# Compute the intervals";
      "# The full MC algorithm is described in Section V.B of the Feldman-Cousins paper";
      "# and clarified in https://arxiv.org/abs/1109.0714";
      ("# To implement the very concise " +:+ dq +:+ "such that alpha of the simulated experiments have q<qobs" +:+ dq +:+ ",");
      "# I did a simple scan of the values of the likelihood ratio, starting from the smallest";
      "# originally I was scanning in fixed intervals, but for different theta the likelihood";
      "# ratio has different ranges and scales, so a fixed-step scan did not work";
      "  ";
      "alpha=0.90 # for a 90% CI";
      "xIntervals=[]";
      "mymeasurements=np.linspace(-2.,4., num=50)";
      "thetaspace=np.linspace(-2.,6., num=50)";
      "count=0";
      EmptyString;
      "exampletoys=None";
      "examplearr=None";
      "exampleqcrit=None";
      "for theta in thetaspace:";
      "    #1. Draw a toy from the pdf";
      "    toys=sample_from_pdf(theta,10000)";
      "    #2. Compute the likelihood ratio for this toy";
      "    xandqobs = FILL HERE";
      "    #3. Find the value of qccritical such that alpha of the toy experiments have q<qcritical";
      "    xandqobs=np.array(xandqobs)";
      "    xandqobs=FILL HERE # order by likelihood ratio";
      "    qcrit=0.";
      "    #print('theta=',theta)";
      "    for qs in xandqobs[:,1]:";
      "        # Since we start from qcrit=0, and the neg-log-likeliood is positive, at first no value will be below";
      "        # so the loop is until the fraction becomes > alpha";
      "        prob=FILL HERE";
      EmptyString;
      "        if prob > alpha:";
      "            print('Breaking at qcrit', qcrit)";
      "            break";
      "        else: # this trick is to pick the last value for which prob >=alpha";
      "            qcrit=qs";
      "    ";
      "    #4. The interval is given by the values of x s.t. qobstoy < qcritical";
      "    xInterval= FILL HERE";
      "    # Sort by likelihood ratio, even if they should already be ";
      "    xInterval.sort()";
      "    xIntervals.append(xInterval)";
      EmptyString;
      "    count+=1";
      "    ";
      "plt.hist(exampletoys, bins=mymeasurements, label='Toys')";
      "plt.plot(examplearr[:,0],examplearr[:,1], label='Likelihood ratio')";
      "plt.axhline(y=exampleqcrit, color='r', linestyle='-')";
      "plt.title('Toys for theta = %s'%thetaspace[25])        ";
      "    " ];
    [ "plt.plot(examplearr[:,0],examplearr[:,1], label='Likelihood ratio')";
      "plt.yscale('log')";
      "plt.axhline(y=exampleqcrit, color='r', linestyle='-')" ];
    [ "# Plot with range used in the scan";
      EmptyString;
      "fc_intervals=[]";
      "fc_colors=[]";
      "for i, theta in zip(xIntervals, thetaspace):";
      "    if len(i)==0:";
      "        continue";
      "    #fc_intervals.append([(i[0][0],theta),(i[-1][0],theta)])";
      "    #fc_intervals.append([(min(i),theta),(max(i),theta)])";
      "    fc_intervals.append([(i[0],theta),(i[-1],theta)])";
      "    fc_colors.append([0,1,0,1]) # blue?";
      "from matplotlib import collections  as mc";
      "import pylab as pl";
      "fc_coll = mc.LineCollection(fc_intervals, colors=np.array(fc_colors), linewidths=2)";
      "fig, ax = pl.subplots()";
      "ax.add_collection(fc_coll)";
      "ax.autoscale()";
      "plt.xlim((min(mymeasurements),max(mymeasurements)))";
      "plt.ylim((min(thetaspace), max(thetaspace)))";
      EmptyString;
      "plt.title('Feldman cousins')";
      "plt.xlabel('\hat{theta}')";
      "plt.ylabel('true theta')" ];
    [ "# Plot with the range used by Feldman and Cousins";
      "other_fc_coll = mc.LineCollection(fc_intervals, colors=np.array(fc_colors), linewidths=2)";
      EmptyString;
      "fig, ax = pl.subplots()";
      "ax.add_collection(other_fc_coll)";
      "#ax.autoscale()";
      "ax.set_xlim((-2.,4.))";
      "ax.set_ylim((0.,6.))";
      EmptyString;
      "plt.title('Feldman cousins')";
      "plt.xlabel('\hat{theta}')";
      "plt.ylabel('true theta')" ];
    [ "# insert code here..." ];
    [];
    [ "#First we need a likelihood function, or even better the log-likelihood";
      EmptyString;
      "# Let's assume we have a sample of N i.i.d. normal random variables with unit variance inserted in a vector x, then the likelihood is:";
      "def lnL(x, theta):";
      "    # Gaussian likelihood";
      "    N=len(x)";
      "    return -N/2.*math.log(2*math.pi)-1/2.*sum((x-[theta for i in range(len(x))])**2)";
      EmptyString;
      "# Since we are at it, let's also write down the MLE, that in case of a gaussian likelhood we know analytically it is the mean";
      "# We have to slightly modify it, though, to account for the physical boundary (we assume that for a measurement x, the physically-allowed value of the MLE for theta is therefore max(0,x)";
      EmptyString;
      "def mle(x):";
      "    return max([sum(x)/len(x), 0.])" ];
    [ "# As a test, now let's plot the log likelihood for a specific data realization";
      "#xobs=np.random.normal(loc=10, scale=1.0, size=10)";
      "xobs=np.random.normal(loc=0.5, scale=1.0, size=10)";
      EmptyString;
      "# Let's scan a parameter range in theta from 5 to 15";
      "thetaspace=np.linspace(5., 15., num=20)";
      "print('theta space shape:', thetaspace.shape, 'dataspace:', xobs.shape)";
      EmptyString;
      "mylnL=[ lnL(xobs,theta) for theta in thetaspace ]";
      EmptyString;
      "plt.plot(thetaspace, mylnL, label='lnL function')";
      "plt.axvline(x=mle(xobs), c='red', label='MLE')";
      "plt.title('Log likelihood for the given xobs')";
      "plt.xlabel('theta')";
      "plt.ylabel('lnL(theta; xobs)')";
      "plt.legend(loc='best')" ];
    [ "# Now we need the likelihood ratio.";
      "# Let's first assume we don't have any nuisance parameter.";
      EmptyString;
      "def q(x, theta):";
      "    return -2*lnL(x, theta) -2*lnL(x,mle(x)) ";
      EmptyString;
      "# Let's plot the likelihood ratio";
      EmptyString;
      "myq=[ q(xobs,theta) for theta in thetaspace ]";
      EmptyString;
      "plt.plot(thetaspace, myq, label='q_xobs(theta)')";
      "plt.axvline(x=mle(xobs), c='red', label='MLE')";
      "plt.title('Likelihood ratio for the given xobs')";
      "plt.xlabel('theta')";
      "plt.ylabel('q(xobs,theta)')";
      "plt.legend(loc='best')" ];
    [ "# Let's generate the distribution of the test statistic for a generic measurement of the mean";
      EmptyString;
      "def qdist(theta, anal):";
      "    measurements=np.linspace(-5.,15., num=2000)";
      "    return [ q(np.random.normal(loc=mu, scale=1.0, size=10), theta) for mu in measurements] ";
      EmptyString;
      "# Given this function, we also need a function to compute its integral";
      EmptyString;
      "def px(qdist,qobs):";
      "    # VERY crude integral";
      "    return(float(sum([ x for x in qdist if x >=qobs]) / sum(qdist)))" ];
    [ "# Choose the critical value";
      "alpha=0.68";
      EmptyString;
      "xIntervals=[]";
      "mymeasurements=np.linspace(-5.,15., num=50)";
      EmptyString;
      "for theta in thetaspace:";
      "    xInterval=[]";
      "    for mu in mymeasurements:";
      "        xobsi=np.random.normal(loc=mu, scale=1.0, size=10)";
      "        qobs=q(xobsi,theta)";
      "        qcond=qdist(theta,True)";
      "        if px(qcond,qobs) > alpha:";
      "            xInterval.append(theta)";
      "    xIntervals.append(xInterval)";
      EmptyString;
      "print(xIntervals)" ];
    [ "# Plot this";
      EmptyString;
      "lower=[]";
      "upper=[]";
      "for i in xIntervals:";
      "    lower.append(min(i))";
      "    upper.append(max(i))";
      "    ";
      "plt.plot(mymeasurements,lower)";
      "plt.plot(mymeasurements,upper)";
      "plt.axvline(x=mle(xobs), c='red', label='MLE')";
      "plt.title('Feldman cousins')";
      "plt.xlabel('\hat{theta}')";
      "plt.ylabel('true theta')";
      "plt.legend(loc='best')" ]
  ].

Definition monty_hall_cells : list (list string) :=
  [
    [ "from random import choice #takes an array as an input and gives one random pick as output";
      "# call it like: choice()";
      "# if you";
      "# import random";
      "# then call it like: random.choice()" ];
    [ EmptyString;
      "def monty_from_tijms(games=10000):";
      "    switch_wins=0 # Number of times switching door wins";
      "    stay_wins=0 # Number of times staying with the first chosen door wins";
      "    doors = [1, 2, 3]";
      "    for game in range(games): # Each game";
      "        prize_door = # randomly choose the door that contains the prize";
      "        chosen_door = # player picks a door at random";
      "        opened_door = # Monty Hall opens a non-prize non-chosen door";
      "        switch_door = # Select the door that would be chosen if switching";
      "        # Check if chosen_door would win, and add to counter";
      "        # Check if switch_door would win, and add to counter";
      EmptyString;
      ("    print('Win rate with a " +:+ dq +:+ "don\'t switch" +:+ dq +:+ " strategy:', stay_wins/games )");
      ("    print('Win rate with a " +:+ dq +:+ "switch" +:+ dq +:+ " strategy:', switch_wins/games)");
      "        " ];
    [ "# Run simulation";
      "monty_from_tijms(10000)" ];
    [ "def ignorant_monty(games=10000):";
      "    switch_wins=0";
      "    stay_wins=0";
      "    open_wins=0";
      "    doors = [1, 2, 3]";
      "    for game in range(games):";
      "        prize_door = # randomly choose the door that contains the prize";
      "        chosen_door = # player picks a door at random";
      "        opened_door = # Monty Hall opens a non-chosen door. NOW HE RISKS OPENING THE PRIZE DOOR";
      "        switch_door = # Select the door that would be chosen if switching";
      "        # Check if chosen_door would win, and add to counter";
      "        # Check if switch_door would win, and add to counter";
      "        # Sanity check: check if the opened door wins, and add to counter";
      ("    print('Win rate with a " +:+ dq +:+ "don\'t switch" +:+ dq +:+ " strategy:', stay_wins/games )");
      ("    print('Win rate with a " +:+ dq +:+ "switch" +:+ dq +:+ " strategy:', switch_wins/games)");
      ("    print('Loose rate due to " +:+ dq +:+ "prize is behind opened door" +:+ dq +:+ ":', open_wins/games)");
      "    print('Sum of rates:', (stay_wins+switch_wins+open_wins)/games)" ];
    [ "# Run simulation";
      "ignorant_monty(10000)" ];
    []
  ].

Definition wine_quality_cells : list (list string) :=
  [
    [ "import wget";
      "import os";
      "import numpy as np";
      "import pandas as pd";
      "from sklearn.model_selection import train_test_split";
      "from matplotlib import pyplot as plt" ];
    [ EmptyString;
      EmptyString;
      "files=['https://archive.ics.uci.edu/ml/machine-learning-databases/wine-quality/winequality-red.csv',";
      "    'https://archive.ics.uci.edu/ml/machine-learning-databases/wine-quality/winequality-white.csv'";
      "]";
      "    ";
      "for f in files:";
      "    if not os.path.exists('./%s'%os.path.basename(f)): # so that we can rerun this without worrying of duplicate downloads";
      "        wget.download(f, './%s'%os.path.basename(f))";
      EmptyString ];
    [ "data = pd.read_csv('winequality-red.csv', delimiter=';')";
      EmptyString;
      "    ";
      "# Visualize the first five entries";
      "data.head()" ];
    [ "data = data.sample(frac=1).reset_index(drop=True)";
      EmptyString;
      "data_tr=data.head(int(len(data)/2))";
      "data_te=data.tail(len(data)-int(len(data)/2))";
      EmptyString;
      "print('Sanity check: ', len(data), '==', len(data_tr), '+', len(data_te),': ', len(data)==len(data_tr)+len(data_te))" ];
    [ "y_train = np.array(data_tr['quality'])";
      "x_train = data_tr.drop(['quality'], axis=1).T";
      "y_test  = np.array(data_te['quality'])";
      "x_test  = data_te.drop(['quality'], axis=1).T";
      EmptyString ];
    [ "# a: 2x3";
      "a=[";
      "    [2,2,3],";
      "    [2,2,3]";
      "]";
      "# b: 3x4";
      "b=[";
      "   [1,2,3,4],";
      "   [1,2,3,4],";
      "   [1,2,3,4]";
      "]";
      EmptyString;
      "# a dot b: 2x4";
      EmptyString;
      "print(np.dot(a,b))" ];
    [ "def sigmoid(input):    ";
      "    return  #FILL HERE";
      EmptyString;
      "# Define the sigmoid derivative function";
      "def sigmoid_derivative(input):";
      "    return #FILL HERE" ];
    [ "x=np.linspace(-10,10,100)";
      EmptyString;
      "plt.plot(x, sigmoid(x), label='sigmoid(x)')";
      "plt.plot(x, sigmoid_derivative(x), label='sigmoid\'(x)')";
      "plt.xlabel('x')";
      "plt.ylabel('f(x)')";
      "plt.legend(loc='best')" ];
    [ "n_inputs = x_train.shape[0]";
      "n_hidden = 20  ";
      "n_output = 1" ];
    [ "# From input layer to hidden layer";
      "weights_input_hidden =  #FILL HERE";
      "# From hidden layer to output layer";
      "weights_hidden_output = #FILL HERE" ];
    [ "# calculating hidden layer activations";
      "hiddenLayer_linearTransform = #FILL HERE";
      "hiddenLayer_activations =  #FILL HERE";
      EmptyString;
      "# calculating the output";
      "outputLayer_linearTransform =  #FILL HERE";
      "output =  #FILL HERE";
      EmptyString;
      EmptyString;
      "print(output)";
      EmptyString;
      "print('MSE:', np.sum(np.square(y_train - output))/len(y_train))" ];
    [ "error = np.square(y_train - output) / 2" ];
    [ "# Linear transform of the output going towards hidden layer";
      "o_to_h_lincomb  =  #FILL HERE";
      "# Linear transform of the output w.r.t. weights of hidden output";
      "o_to_h_activation =  #FILL HERE";
      EmptyString;
      EmptyString;
      EmptyString;
      "# calculating rate of change of error w.r.t weight between hidden and output layer";
      "error_wrt_output =  #FILL HERE";
      "output_wrt_outputLayer_LinearTransform =  #FILL HERE";
      "outputLayer_LinearTransform_wrt_weights_hidden_output =  #FILL HERE";
      EmptyString;
      "error_wrt_weights_hidden_output =  #FILL HERE";
      EmptyString;
      "# calculating rate of change of error w.r.t weights between input and hidden layer";
      "outputLayer_LinearTransform_wrt_hiddenLayer_activations = #FILL HERE";
      "hiddenLayer_activations_wrt_hiddenLayer_linearTransform =  #FILL HERE";
      "hiddenLayer_linearTransform_wrt_weights_input_hidden =  #FILL HERE";
      "error_wrt_weights_input_hidden =  #FILL HERE" ];
    [ "# updating the weights";
      "weights_hidden_output =  #FILL HERE";
      "weights_input_hidden =  #FILL HERE";
      EmptyString ];
    [];
    [ "plt.plot(losses)" ];
    []
  ].

Definition wilks_cells : list (list string) :=
  [
    [ "import os";
      "import sys";
      "import numpy as np";
      "import matplotlib.pyplot as plt";
      "import scipy.stats as ss";
      "import math";
      EmptyString;
      "%matplotlib inline" ];
    [ "n_pseudoexperiments=50";
      EmptyString;
      "# Poisson lambda";
      "lam=0.4";
      EmptyString;
      "# Lazily do it in one go";
      "n_observations=[10, 100, 1000]" ];
    [ "for nsampl in n_observations:";
      "    samples=np.zeros(n_pseudoexperiments)";
      ("    print(" +:+ dq +:+ "Running pseudoexperiments for {nsampl} observations" +:+ dq +:+ ".format(nsampl=nsampl))");
      "    for toy in range(1, n_pseudoexperiments):";
      "        # Generate nsampl observations from a Poisson(lam)";
      "        # Calculate the likelihood ratio test statistic and store it";
      "        ";
      "    fix, ax = plt.subplots(1,1)";
      "    # It seems easier to normalize the histogram than the chi2";
      ("    plt.hist(samples, density=True, color=" +:+ dq +:+ "black" +:+ dq +:+ ")");
      ("    plt.xlabel(" +:+ dq +:+ "Sampled values of log-likelihood ratio values" +:+ dq +:+ ")");
      ("    plt.ylabel(" +:+ dq +:+ "Frequency" +:+ dq +:+ ")");
      ("    plt.title(" +:+ dq +:+ "Log-likelihood ratio" +:+ dq +:+ ")");
      "    x = np.linspace(0,20)";
      "    plt.plot(x,ss.chi2.pdf(x,1))";
      "    plt.show()" ];
    []
  ].

Inductive notebook := FeldmanCousins | MontyHall | WineQuality | Wilks.

#[global] Instance notebook_eq_dec : EqDecision notebook.
Proof. solve_decision. Defined.

Definition notebooks : list notebook :=
  [FeldmanCousins; MontyHall; WineQuality; Wilks].

(** The code cells of a notebook, in document order. *)
Definition code_cells (nb : notebook) : list (list string) :=
  match nb with
  | FeldmanCousins => feldman_cousins_cells
  | MontyHall => monty_hall_cells
  | WineQuality => wine_quality_cells
  | Wilks => wilks_cells
  end.

Definition code_lines (nb : notebook) : list string := concat (code_cells nb).

(** *** Searching a line *)

Fixpoint starts_with (p s : string) : bool :=
  match p, s with
  | EmptyString, _ => true
  | String a p', String b s' => if Ascii.eqb a b then starts_with p' s' else false
  | String _ _, EmptyString => false
  end.

Fixpoint contains (needle hay : string) : bool :=
  starts_with needle hay ||
  match hay with
  | EmptyString => false
  | String _ hay' => contains needle hay'
  end.

Definition contains_any (needles : list string) (hay : string) : bool :=
  existsb (fun n => contains n hay) needles.

Definition is_blank (c : ascii) : bool :=
  Ascii.eqb c " "%char || Ascii.eqb c (ascii_of_nat 9).

(** Python's [str.lstrip] for blanks, and the width of the indentation. *)
Fixpoint lstrip (s : string) : string :=
  match s with
  | String c s' => if is_blank c then lstrip s' else s
  | EmptyString => EmptyString
  end.

Fixpoint indent (s : string) : nat :=
  match s with
  | String c s' => if is_blank c then S (indent s') else 0
  | EmptyString => 0
  end.

(** The part of a line before its comment.  No code line of the notebooks has
    a hash sign inside a string literal, so the first hash starts the comment. *)
Fixpoint code_part (s : string) : string :=
  match s with
  | EmptyString => EmptyString
  | String c s' => if Ascii.eqb c "#"%char then EmptyString else String c (code_part s')
  end.

Fixpoint last_nonblank (s : string) (acc : option ascii) : option ascii :=
  match s with
  | EmptyString => acc
  | String c s' => last_nonblank s' (if is_blank c then acc else Some c)
  end.

(** A line that holds no statement: empty, blank or a comment. *)
Definition no_statement (s : string) : bool :=
  match lstrip (code_part s) with EmptyString => true | _ => false end.

Definition ends_with_char (c : ascii) (s : string) : bool :=
  match last_nonblank (code_part s) None with
  | Some d => Ascii.eqb c d
  | None => false
  end.

(** *** Gaps left for the student *)

Definition fill_marker : string := "FILL HERE".

Definition cell_has_fill_marker (cell : list string) : bool :=
  existsb (contains fill_marker) cell.

(** An assignment whose right-hand side is missing: the code of the line ends
    with the equals sign. *)
Definition dangling_assignment (line : string) : bool :=
  ends_with_char "="%char line.

Fixpoint next_statement (ls : list string) : option string :=
  match ls with
  | [] => None
  | l :: r => if no_statement l then next_statement r else Some l
  end.

(** A block header (a line ending with a colon) whose body holds no statement:
    the next statement, if any, is not indented deeper than the header. *)
Fixpoint has_empty_block (ls : list string) : bool :=
  match ls with
  | [] => false
  | l :: r =>
      (ends_with_char ":"%char l &&
       match next_statement r with
       | None => true
       | Some l' => Nat.leb (indent l') (indent l)
       end)
      || has_empty_block r
  end.

Definition cell_has_gap (cell : list string) : bool :=
  cell_has_fill_marker cell || existsb dangling_assignment cell || has_empty_block cell.

Definition has_fill_marker (nb : notebook) : bool :=
  existsb cell_has_fill_marker (code_cells nb).

Definition has_gap (nb : notebook) : bool :=
  existsb cell_has_gap (code_cells nb).

(** *** Imports *)

Fixpoint take_until (stop : ascii -> bool) (s : string) : string :=
  match s with
  | EmptyString => EmptyString
  | String c s' => if stop c then EmptyString else String c (take_until stop s')
  end.

Fixpoint drop_prefix (n : nat) (s : string) : string :=
  match n, s with
  | S n', String _ s' => drop_prefix n' s'
  | _, _ => s
  end.

(** The module named by an [import m] or [from m import ...] line. *)
Definition imported_module (line : string) : option string :=
  let s := lstrip (code_part line) in
  if starts_with "import " s then Some (take_until is_blank (lstrip (drop_prefix 7 s)))
  else if starts_with "from " s then Some (take_until is_blank (lstrip (drop_prefix 5 s)))
  else None.

(** The top-level package of a dotted module name. *)
Definition top_package (m : string) : string :=
  take_until (fun c => Ascii.eqb c "."%char) m.

Definition imports (nb : notebook) : list string :=
  omap imported_module (code_lines nb).

(** The packages that come with Python or are installed from a package index;
    none of them is defined by the repository. *)
Definition external_packages : list string :=
  ["math"; "os"; "sys"; "random"; "numpy"; "scipy"; "matplotlib"; "pylab";
   "pandas"; "sklearn"; "wget"].

Definition imports_external_only (nb : notebook) : bool :=
  forallb (fun m => existsb (String.eqb (top_package m)) external_packages) (imports nb).

(** *** Exception handlers *)

Definition is_handler_line (line : string) : bool :=
  let s := lstrip (code_part line) in
  starts_with "try:" s || starts_with "try " s || starts_with "except" s
  || starts_with "finally" s || contains "suppress(" s.

Definition has_handler (nb : notebook) : bool :=
  existsb is_handler_line (code_lines nb).

(** *** Threads, processes and asynchronous tasks *)

Definition concurrency_packages : list string :=
  ["threading"; "multiprocessing"; "asyncio"; "concurrent"; "subprocess";
   "joblib"; "dask"; "ray"].

Definition concurrency_words : list string :=
  ["async "; "await "; "Thread"; "Process"; "Pool"; "fork"; "Executor";
   "os.system"; "Popen"].

Definition spawns_task (line : string) : bool :=
  contains_any concurrency_words (code_part line).

Definition is_sequential (nb : notebook) : bool :=
  forallb (fun l => negb (spawns_task l)) (code_lines nb)
  && forallb (fun m => negb (existsb (String.eqb (top_package m)) concurrency_packages))
       (imports nb).

(** *** File access *)

Definition file_write_calls : list string :=
  ["wget.download"; "open("; "to_csv"; "to_pickle"; "savefig"; "np.save";
   "savetxt"; "dump("; "os.remove"; "os.rename"; "os.mkdir"; "os.makedirs";
   "shutil"; "urlretrieve"].

Definition file_read_calls : list string :=
  ["read_csv"; "open("; "np.load"; "loadtxt"; "genfromtxt"; "read_pickle";
   "os.path.exists"; "os.listdir"].

Definition file_writes (nb : notebook) : list string :=
  filter (fun l => contains_any file_write_calls (code_part l) = true) (code_lines nb).

Definition file_reads (nb : notebook) : list string :=
  filter (fun l => contains_any file_read_calls (code_part l) = true) (code_lines nb).

End Corpus.

(** ** Names, and the order in which the cells were run *)

Module Names.
Import Corpus.

(** *** Execution counts *)

(** The [execution_count] recorded with every code cell, in document order;
    a cell that was not run has none. *)
Definition execution_counts (nb : notebook) : list (option nat) :=
  match nb with
  | FeldmanCousins =>
      [Some 3; Some 5; Some 6; None; None; None; None; Some 52; None; None;
       None; None; None; None; None]
  | MontyHall => [Some 1; Some 18; None; Some 20; None; None]
  | WineQuality =>
      [None; None; None; None; None; None; None; None; None; None; None;
       None; None; None; None; None; None]
  | Wilks => [Some 1; Some 4; None; None]
  end.

(** The recorded counts grow down the document. *)
Fixpoint counts_increase (previous : nat) (counts : list (option nat)) : bool :=
  match counts with
  | [] => true
  | None :: rest => counts_increase previous rest
  | Some n :: rest => Nat.ltb previous n && counts_increase n rest
  end.

Definition recorded_top_to_bottom (nb : notebook) : bool :=
  Nat.eqb (length (execution_counts nb)) (length (code_cells nb))
  && counts_increase 0 (execution_counts nb).

(** *** The identifiers of a line *)

Definition is_digit (c : ascii) : bool :=
  Nat.leb 48 (nat_of_ascii c) && Nat.leb (nat_of_ascii c) 57.

Definition is_ident_char (c : ascii) : bool :=
  let n := nat_of_ascii c in
  (Nat.leb 97 n && Nat.leb n 122) || (Nat.leb 65 n && Nat.leb n 90)
  || is_digit c || Nat.eqb n 95.

Definition is_quote (c : ascii) : bool :=
  Nat.eqb (nat_of_ascii c) 39 || Nat.eqb (nat_of_ascii c) 34.

Definition blank : ascii := " "%char.

(** The line with every string literal blanked out; [quote] is the quote
    that opened the literal being read, and a backslash keeps the character
    after it inside the literal. *)
Fixpoint strip_strings (quote : option ascii) (s : string) : string :=
  match s with
  | EmptyString => EmptyString
  | String c s' =>
      match quote with
      | None =>
          if is_quote c then String blank (strip_strings (Some c) s')
          else String c (strip_strings None s')
      | Some q =>
          if Nat.eqb (nat_of_ascii c) 92 then
            match s' with
            | EmptyString => String blank EmptyString
            | String _ s'' => String blank (String blank (strip_strings quote s''))
            end
          else if Ascii.eqb c q then String blank (strip_strings None s')
          else String blank (strip_strings quote s')
      end
  end.

Definition is_open (c : ascii) : bool :=
  Ascii.eqb c "("%char || Ascii.eqb c "["%char || Ascii.eqb c "{"%char.
Definition is_close (c : ascii) : bool :=
  Ascii.eqb c ")"%char || Ascii.eqb c "]"%char || Ascii.eqb c "}"%char.

(** What an identifier stands for: a name, an attribute (it follows a dot),
    or the keyword of an argument (inside brackets, followed by a single
    equals sign). *)
Inductive role := Plain | Attribute | KeywordArgument.

Definition token : Type := role * string.

Definition is_plain (t : token) : bool :=
  match fst t with Plain => true | _ => false end.
Definition is_attribute (t : token) : bool :=
  match fst t with Attribute => true | _ => false end.

(** The token that ends, if any; a token that starts with a digit is a
    number. *)
Definition flush (current : option (bool * string)) (keyword : bool) : list token :=
  match current with
  | Some (attribute, String c t) =>
      if is_digit c then []
      else [(if attribute then Attribute
             else if keyword then KeywordArgument else Plain, String c t)]
  | _ => []
  end.

Definition starts_with_equals (s : string) : bool :=
  match s with
  | String c _ => Ascii.eqb c "="%char
  | EmptyString => false
  end.

Fixpoint scan_tokens (s : string) (previous : ascii) (depth : nat)
    (current : option (bool * string)) : list token :=
  match s with
  | EmptyString => flush current false
  | String c s' =>
      if is_ident_char c then
        match current with
        | Some (attribute, t) =>
            scan_tokens s' c depth (Some (attribute, t +:+ String c EmptyString))
        | None =>
            scan_tokens s' c depth
              (Some (Ascii.eqb previous "."%char, String c EmptyString))
        end
      else
        let keyword :=
          negb (Nat.eqb depth 0) && Ascii.eqb c "="%char && negb (starts_with_equals s') in
        let depth' :=
          if is_open c then S depth else if is_close c then pred depth else depth in
        (flush current keyword ++ scan_tokens s' c depth' None)%list
  end.

Definition tokens (text : string) : list token := scan_tokens text blank 0 None.

(** The names of a text: its identifiers that are neither attributes nor
    keywords of arguments. *)
Definition names_of (text : string) : list string :=
  map snd (List.filter is_plain (tokens text)).

(** The same with the keywords of arguments, for the parameters of a [def]. *)
Definition names_and_parameters_of (text : string) : list string :=
  map snd (List.filter (fun t => negb (is_attribute t)) (tokens text)).

(** The code of a line without its comment and its string literals; a magic
    line, which starts with a percent sign, holds no Python code. *)
Definition python_text (line : string) : string :=
  let s := strip_strings None (code_part line) in
  if starts_with "%" (lstrip s) then EmptyString else s.

(** *** The names a line binds *)

Fixpoint words_from (s : string) (current : string) : list string :=
  match s with
  | EmptyString =>
      match current with EmptyString => [] | _ => [current] end
  | String c s' =>
      if is_blank c then
        match current with
        | EmptyString => words_from s' EmptyString
        | _ => current :: words_from s' EmptyString
        end
      else words_from s' (current +:+ String c EmptyString)
  end.

Definition words (s : string) : list string := words_from s EmptyString.

(** The name bound by an import line. *)
Definition import_binding (line : string) : option string :=
  match words (python_text line) with
  | w1 :: m :: rest =>
      if String.eqb w1 "import" then
        match rest with
        | w3 :: n :: _ => if String.eqb w3 "as" then Some n else Some (top_package m)
        | _ => Some (top_package m)
        end
      else if String.eqb w1 "from" then
        match rest with
        | _ :: a :: w5 :: n :: _ => if String.eqb w5 "as" then Some n else Some a
        | _ :: a :: _ => Some a
        | _ => None
        end
      else None
  | _ => None
  end.

Definition is_import_line (line : string) : bool :=
  match import_binding line with Some _ => true | None => false end.

Definition is_comparison_mark (c : ascii) : bool :=
  Ascii.eqb c "="%char || Ascii.eqb c "!"%char || Ascii.eqb c "<"%char
  || Ascii.eqb c ">"%char.

(** The text before the first equals sign that is an assignment: outside
    every bracket and not part of a comparison. *)
Fixpoint assignment_target (s : string) (depth : nat) (previous : ascii)
    (before : string) : option string :=
  match s with
  | EmptyString => None
  | String c s' =>
      let continue d := assignment_target s' d c (before +:+ String c EmptyString) in
      if is_open c then continue (S depth)
      else if is_close c then continue (pred depth)
      else if Ascii.eqb c "="%char && Nat.eqb depth 0 then
        if is_comparison_mark previous
           || match s' with String n _ => Ascii.eqb n "="%char | EmptyString => false end
        then continue depth
        else Some before
      else continue depth
  end.

(** The names an assignment binds; a subscripted target binds none. *)
Definition assigned_names (text : string) : list string :=
  match assignment_target text 0 blank EmptyString with
  | Some target => if contains "[" target then [] else names_of target
  | None => []
  end.

(** The names between [for] and [in], in a loop or a comprehension. *)
Fixpoint for_targets (ts : list token) (inside : bool) : list string :=
  match ts with
  | [] => []
  | t :: rest =>
      if inside then
        if String.eqb (snd t) "in" then for_targets rest false
        else snd t :: for_targets rest true
      else if String.eqb (snd t) "for" && is_plain t then for_targets rest true
      else for_targets rest false
  end.

(** The name and the parameters of a [def]. *)
Definition def_names (text : string) : list string :=
  match names_and_parameters_of text with
  | first :: rest => if String.eqb first "def" then rest else []
  | [] => []
  end.

Definition bound_by_line (line : string) : list string :=
  match import_binding line with
  | Some n => [n]
  | None =>
      let text := python_text line in
      (def_names text ++ for_targets (tokens text) false ++ assigned_names text)%list
  end.

Definition used_by_line (line : string) : list string :=
  if is_import_line line then [] else names_of (python_text line).

(** The names a notebook binds in its cells or imports, and the names it
    uses. *)
Definition defined (nb : notebook) : list string :=
  concat (map bound_by_line (code_lines nb)).

Definition used (nb : notebook) : list string :=
  concat (map used_by_line (code_lines nb)).

Definition is_defined (nb : notebook) (name : string) : bool :=
  existsb (String.eqb name) (defined nb).

Definition is_used (nb : notebook) (name : string) : bool :=
  existsb (String.eqb name) (used nb).

(** The words of the language and the names it provides without import. *)
Definition python_names : list string :=
  ["False"; "None"; "True"; "and"; "as"; "assert"; "async"; "await"; "break";
   "class"; "continue"; "def"; "del"; "elif"; "else"; "except"; "finally";
   "for"; "from"; "global"; "if"; "import"; "in"; "is"; "lambda"; "nonlocal";
   "not"; "or"; "pass"; "raise"; "return"; "try"; "while"; "with"; "yield";
   "abs"; "all"; "any"; "bool"; "dict"; "enumerate"; "filter"; "float";
   "input"; "int"; "isinstance"; "iter"; "len"; "list"; "map"; "max"; "min";
   "next"; "object"; "open"; "pow"; "print"; "range"; "repr"; "reversed";
   "round"; "set"; "sorted"; "str"; "sum"; "tuple"; "type"; "zip"].

Definition is_python_name (name : string) : bool :=
  existsb (String.eqb name) python_names.

(** The names a notebook uses that another notebook binds and it does not. *)
Definition borrowed (user owner : notebook) : list string :=
  let own := defined user in
  let other := defined owner in
  List.filter
    (fun name => existsb (String.eqb name) other && negb (existsb (String.eqb name) own))
    (used user).

(** The names a notebook uses that neither its cells nor Python provide. *)
Definition undefined_names (nb : notebook) : list string :=
  let own := defined nb in
  List.filter
    (fun name => negb (existsb (String.eqb name) own) && negb (is_python_name name))
    (used nb).

(** The names the gaps leave open: the two words of the placeholder, where
    it stands in place of an expression, and the list the last cell plots. *)
Definition gap_names : list string := ["FILL"; "HERE"; "losses"].

Definition undefined_are_gaps (nb : notebook) : bool :=
  forallb (fun name => existsb (String.eqb name) gap_names) (undefined_names nb).

(** *** Uses of the [os] module *)

(** Every use of the name [os] is an access to [os.path]. *)
Fixpoint os_only_for_paths (ts : list token) : bool :=
  match ts with
  | [] => true
  | t :: rest =>
      (if String.eqb (snd t) "os" && is_plain t then
         match rest with
         | (Attribute, next) :: _ => String.eqb next "path"
         | _ => false
         end
       else true)
      && os_only_for_paths rest
  end.

Definition uses_os_for_paths_only (nb : notebook) : bool :=
  forallb (fun line =>
             is_import_line line || os_only_for_paths (tokens (python_text line)))
    (code_lines nb).

End Names.

(** ** Values, exceptions and results *)

(** A Python call either returns a value or raises; nothing in the notebooks
    catches an exception, so a raised exception is the result of the cell. *)
Inductive exn :=
  | ZeroDivisionError
  | IndexError
  | FileNotFoundError
  | IsADirectoryError
  | EmptyDataError
  | ParserError.

Inductive result (A : Type) : Type :=
  | Return (a : A)
  | Raise (e : exn).
Arguments Return {A} a.
Arguments Raise {A} e.

#[global] Instance result_bind : MBind result := fun A B k r =>
  match r with
  | Return a => k a
  | Raise e => Raise e
  end.

#[global] Instance result_ret : MRet result := fun A a => Return a.

Definition returns {A : Type} (r : result A) : bool :=
  match r with Return _ => true | Raise _ => false end.

Open Scope Q_scope.

(** [a / b] on Python numbers: division by zero raises. *)
Definition py_div (a b : Q) : result Q :=
  if Qeq_bool b 0 then Raise ZeroDivisionError else Return (a / b).

(** The builtin [sum]: the items are added to 0 from left to right. *)
Definition py_sum (l : list Q) : Q := fold_left Qplus l 0.

(** The comparisons [a > b] and [a >= b]. *)
Definition Qgt_bool (a b : Q) : bool := negb (Qle_bool a b).
Definition Qge_bool (a b : Q) : bool := Qle_bool b a.

(** The builtin [max] on two items keeps the first unless the second is
    strictly greater. *)
Definition py_max2 (a b : Q) : Q := if Qgt_bool b a then b else a.

(** [l[0]] and [l[-1]]: an empty list raises IndexError. *)
Definition index_first (l : list Q) : result Q :=
  match l with
  | [] => Raise IndexError
  | x :: _ => Return x
  end.

Definition index_last (l : list Q) : result Q :=
  match last l with
  | Some x => Return x
  | None => Raise IndexError
  end.

(** The numbers a notebook divides are Python's own, whose division by
    zero raises ZeroDivisionError, or numpy's float64 scalars (the items of
    an array such as a linspace), whose division by zero gives nan or an
    infinity, with a warning and no exception. *)
Inductive numbers := PythonNumbers | NumpyFloats.

(** A float: a finite value, nan, or an infinity with its sign. *)
Inductive number :=
  | Finite (v : Q)
  | NaN
  | Infinity (positive : bool).

Definition np_div (a b : Q) : number :=
  if Qeq_bool b 0
  then (if Qeq_bool a 0 then NaN else Infinity (Qgt_bool a 0))
  else Finite (a / b).

Definition divide (kind : numbers) (a b : Q) : result number :=
  match kind with
  | PythonNumbers =>
      if Qeq_bool b 0 then Raise ZeroDivisionError else Return (Finite (a / b))
  | NumpyFloats => Return (np_div a b)
  end.

(** ** Feldman-Cousins notebook *)

Module FC.

(** First part of the notebook: one measurement.  [mle] is [max(0.,x)], the
    boundary at zero. *)
Definition mle (x : Q) : Q := py_max2 0 x.

Definition q (x theta : Q) : Q :=
  if Qle_bool 0 x then - (x - theta) ^ 2 / 2 else x * theta - theta ^ 2 / 2.

(** [qdist] with the measurements given (the default is a linspace). *)
Definition qdist (theta : Q) (measurements : list Q) : list Q :=
  map (fun x => q x theta) measurements.

(** The crude integral.  Without [xspace]: the sum of the values above
    [qobs] over the sum of all values.  With it: the span of the points whose
    value is above [qobs] over the span of [xspace].  The fourth parameter of
    the source, [noprint], is not used by the body.  [kind] is the kind of
    the numbers that are divided: the items of [qdist] without [xspace], the
    items of [xspace] with it.  On an empty [qdist] both sums are the integer
    0 that [sum] starts from, and their division raises. *)
Definition px (kind : numbers) (qdist : list Q) (qobs : Q)
    (xspace : option (list Q)) : result number :=
  match xspace with
  | None =>
      match qdist with
      | [] => Raise ZeroDivisionError
      | _ :: _ =>
          divide kind (py_sum (List.filter (fun x => Qgt_bool x qobs) qdist))
            (py_sum qdist)
      end
  | Some xs =>
      let portion :=
        map snd (List.filter (fun ix => Qgt_bool (fst ix) qobs) (zip qdist xs)) in
      a ← index_last portion;
      b ← index_first portion;
      c ← index_last xs;
      d ← index_first xs;
      divide kind (a - b) (c - d)
  end.

(** Second part of the notebook: a sample of measurements.  [mle] is
    [max([sum(x)/len(x), 0.])] and [px] compares with [>=]. *)
Definition mean (x : list Q) : result Q :=
  py_div (py_sum x) (inject_Z (Z.of_nat (length x))).

Definition mle_sample (x : list Q) : result Q :=
  m ← mean x; Return (py_max2 m 0).

Definition px_sample (kind : numbers) (qdist : list Q) (qobs : Q) : result number :=
  match qdist with
  | [] => Raise ZeroDivisionError
  | _ :: _ =>
      divide kind (py_sum (List.filter (fun x => Qge_bool x qobs) qdist))
        (py_sum qdist)
  end.

End FC.

(** ** Wine-quality notebook *)

Module Wine.
Import Corpus.

(** *** The download cell *)

(** An entry of the working directory: a file with its content, or a
    subdirectory. *)
Inductive entry :=
  | File (content : string)
  | Directory.

(** The working directory: name to entry.  Paths are kept in normal form,
    without the leading dot and slash. *)
Abbreviation directory := (gmap string entry).

Definition files : list string :=
  ["https://archive.ics.uci.edu/ml/machine-learning-databases/wine-quality/winequality-red.csv";
   "https://archive.ics.uci.edu/ml/machine-learning-databases/wine-quality/winequality-white.csv"].

(** The names the two tables get in the working directory. *)
Definition red_csv : string := "winequality-red.csv".
Definition white_csv : string := "winequality-white.csv".

(** [os.path.basename]: what follows the last slash. *)
Fixpoint basename (p : string) : string :=
  match p with
  | EmptyString => EmptyString
  | String c p' => if contains "/" p then basename p' else p
  end.

Definition normpath (p : string) : string :=
  if starts_with "./" p then drop_prefix 2 p else p.

(** The names of the working directory itself and of its parent. *)
Definition is_dot_name (name : string) : bool :=
  String.eqb name EmptyString || String.eqb name "." || String.eqb name "..".

(** [os.path.exists]: true for a file or a subdirectory of that name, and for
    the working directory itself and its parent. *)
Definition path_exists (fs : directory) (p : string) : bool :=
  is_dot_name (normpath p) || bool_decide (is_Some (fs !! normpath p)).

Section Download.
(** What the server answers for a URL. *)
Variable web : string -> string.

(** [wget.download(url, out)], called on a path that does not exist. *)
Definition wget_download (url out : string) (fs : directory) : directory :=
  <[normpath out := File (web url)]> fs.

Definition download_file (fs : directory) (f : string) : directory :=
  let out := "./" +:+ basename f in
  if path_exists fs out then fs else wget_download f out fs.

Definition download_cell (fs : directory) : directory :=
  foldl download_file fs files.
End Download.

(** *** The train/test split *)

Section Split.
Variable row : Type.

(** A data frame: the rows with their index labels. *)
Definition frame := list (nat * row).

(** [sample(frac=1)]: all the rows, in the drawn order, labels kept. *)
Definition sample_all (order : list nat) (df : frame) : frame :=
  omap (fun i => df !! i) order.

(** [reset_index(drop=True)]: the labels become 0, 1, ... *)
Definition reset_index (df : frame) : frame :=
  zip (seq 0 (length df)) (df.*2).

Definition head (k : nat) (df : frame) : frame := take k df.

(** [tail(m)]: the last [m] rows; [tail(0)] is empty. *)
Definition tail (m : nat) (df : frame) : frame :=
  if Nat.eqb m 0 then [] else drop (length df - m) df.

(** [int(len(data)/2)] *)
Definition half (n : nat) : nat := Nat.div n 2.

Definition shuffle (order : list nat) (df : frame) : frame :=
  reset_index (sample_all order df).

Definition data_tr (data : frame) : frame := head (half (length data)) data.
Definition data_te (data : frame) : frame :=
  tail (length data - half (length data)) data.

Definition labels (df : frame) : list nat := df.*1.
End Split.

Arguments sample_all {row}.
Arguments reset_index {row}.
Arguments head {row}.
Arguments tail {row}.
Arguments shuffle {row}.
Arguments data_tr {row}.
Arguments data_te {row}.
Arguments labels {row}.

End Wine.

(** ** Wilks notebook *)

Module WilksLoop.

(** [range(a, b)] *)
Definition py_range (a b : nat) : list nat := seq a (b - a).

Definition np_zeros (n : nat) : list Q := replicate n 0.

(** [samples[i] = v]: an index past the end raises IndexError. *)
Definition store (samples : list Q) (i : nat) (v : Q) : result (list Q) :=
  if Nat.ltb i (length samples) then Return (<[i := v]> samples) else Raise IndexError.

Section Toys.
(** The test statistic of pseudo-experiment [toy]; it depends on the
    Poisson draws of that pseudo-experiment. *)
Variable statistic : nat -> Q.

(** Modelled from the spec: the body of the loop, which the notebook leaves
    as two comments (generate the observations; calculate the statistic and
    store it): the statistic of the pseudo-experiment goes to [samples[toy]]. *)
Definition toy_step (acc : result (list Q)) (toy : nat) : result (list Q) :=
  samples ← acc; store samples toy (statistic toy).

(** One pass of the outer loop over [n_observations]:
    [samples=np.zeros(n_pseudoexperiments)], then
    [for toy in range(1, n_pseudoexperiments)]; the array is then handed to
    the histogram. *)
Definition toy_loop (n_pseudoexperiments : nat) : result (list Q) :=
  foldl toy_step (Return (np_zeros n_pseudoexperiments))
    (py_range 1 n_pseudoexperiments).
End Toys.

End WilksLoop.

(** ** Monty Hall notebook *)

Module Monty.

(** A finite distribution: outcomes with their weights.  A draw that raises
    contributes no outcome, so a total weight of 1 says that every draw
    returns. *)
Definition dist (A : Type) : Type := list (A * Q).

Definition dret {A : Type} (a : A) : dist A := [(a, 1)].

Definition scale {A : Type} (w : Q) (d : dist A) : dist A :=
  map (fun yv => (fst yv, w * snd yv)) d.

Fixpoint dbind {A B : Type} (d : dist A) (k : A -> dist B) : dist B :=
  match d with
  | [] => []
  | (x, w) :: d' => (scale w (k x) ++ dbind d' k)%list
  end.

(** Expected value of [f], and total weight. *)
Fixpoint expect {A : Type} (d : dist A) (f : A -> Q) : Q :=
  match d with
  | [] => 0
  | (x, w) :: d' => w * f x + expect d' f
  end.

Definition mass {A : Type} (d : dist A) : Q := expect d (fun _ => 1).

Definition prob {A : Type} (d : dist A) (ev : A -> bool) : Q :=
  expect d (fun x => if ev x then 1 else 0).

(** [random.choice]: each item with the same weight; no outcome on an empty
    list, where Python raises IndexError. *)
Definition choice {A : Type} (l : list A) : dist A :=
  map (fun x => (x, 1 / inject_Z (Z.of_nat (length l)))) l.

Definition doors : list Z := [1; 2; 3]%Z.

Record game := {
  prize_door : Z;
  chosen_door : Z;
  opened_door : Z;
  switch_door : Z
}.

Definition others (a b : Z) : list Z :=
  List.filter (fun d => negb (Z.eqb d a) && negb (Z.eqb d b)) doors.

(** Modelled from the spec: the four assignments of one game, which the
    notebook leaves as gaps described by their comments.  The prize door and
    the chosen door are drawn from [doors]; Monty opens a door drawn among
    those that are neither the prize nor the chosen one; the switch door is
    the door that is neither chosen nor opened. *)
Definition play : dist game :=
  dbind (choice doors) (fun prize =>
  dbind (choice doors) (fun chosen =>
  dbind (choice (others prize chosen)) (fun opened =>
  match others chosen opened with
  | switch :: _ => dret {| prize_door := prize; chosen_door := chosen;
                           opened_door := opened; switch_door := switch |}
  | [] => []
  end))).

Definition stay_win (g : game) : bool := Z.eqb (chosen_door g) (prize_door g).
Definition switch_win (g : game) : bool := Z.eqb (switch_door g) (prize_door g).

(** The two counters of [monty_from_tijms]. *)
Record counters := { stay_wins : nat; switch_wins : nat }.

(** Modelled from the spec: the two checks that end the loop body, left as
    comments in the notebook; each adds one to its counter on a win. *)
Definition count (c : counters) (g : game) : counters :=
  {| stay_wins := if stay_win g then S (stay_wins c) else stay_wins c;
     switch_wins := if switch_win g then S (switch_wins c) else switch_wins c |}.

(** [for game in range(games)]: one game, then the remaining ones. *)
Fixpoint simulate (games : nat) (c : counters) : dist counters :=
  match games with
  | O => dret c
  | S n => dbind play (fun g => simulate n (count c g))
  end.

Definition monty_from_tijms (games : nat) : dist counters :=
  simulate games {| stay_wins := 0; switch_wins := 0 |}.

Definition Qnat (n : nat) : Q := inject_Z (Z.of_nat n).

(** The two rates printed at the end, [stay_wins/games] and
    [switch_wins/games]. *)
Definition stay_rate (games : nat) (c : counters) : result Q :=
  py_div (Qnat (stay_wins c)) (Qnat games).
Definition switch_rate (games : nat) (c : counters) : result Q :=
  py_div (Qnat (switch_wins c)) (Qnat games).

(** Expected value of a quantity whose computation may raise: it exists when
    the quantity is returned on every outcome. *)
Fixpoint expect_result {A : Type} (d : dist A) (f : A -> result Q) : result Q :=
  match d with
  | [] => Return 0
  | (x, w) :: d' => v ← f x; e ← expect_result d' f; Return (w * v + e)
  end.

Definition expected_stay_rate (games : nat) : result Q :=
  expect_result (monty_from_tijms games) (stay_rate games).
Definition expected_switch_rate (games : nat) : result Q :=
  expect_result (monty_from_tijms games) (switch_rate games).

End Monty.

(** ** A notebook run and the state outside the kernel *)

Module Run.
Import Corpus.

Section Web.
Variable web : string -> string.
(** The tables that pandas builds, and its parser, which raises
    EmptyDataError or ParserError on a content it cannot read. *)
Variable table : Type.
Variable parse : string -> result table.

(** [pd.read_csv(name)]: the parsed content of the file; FileNotFoundError
    without it, IsADirectoryError on a directory. *)
Definition read_csv (fs : Wine.directory) (name : string) : result table :=
  match fs !! Wine.normpath name with
  | Some (Wine.File content) => parse content
  | Some Wine.Directory => Raise IsADirectoryError
  | None => Raise FileNotFoundError
  end.

(** The working directory after a run.  Only the wine-quality notebook has
    cells that write a file (see [file_writes]). *)
Definition directory_after (nb : notebook) (fs : Wine.directory) : Wine.directory :=
  match nb with
  | WineQuality => Wine.download_cell web fs
  | FeldmanCousins | MontyHall | Wilks => fs
  end.

(** What a run reads from the working directory.  Only the wine-quality
    notebook has cells that read a file (see [file_reads]): the red-wine
    table, after its download cell. *)
Definition file_input (nb : notebook) (fs : Wine.directory) : option (result table) :=
  match nb with
  | WineQuality => Some (read_csv (Wine.download_cell web fs) "winequality-red.csv")
  | FeldmanCousins | MontyHall | Wilks => None
  end.
(** The files a run looks at and the files it may create, by name: those of
    the download and load cells when the text of the notebook has a call
    that reads or writes a file, none otherwise. *)
Definition reads_of (nb : notebook) : gset string :=
  match file_reads nb with
  | [] => ∅
  | _ :: _ => {[Wine.red_csv; Wine.white_csv]}
  end.

Definition writes_of (nb : notebook) : gset string :=
  match file_writes nb with
  | [] => ∅
  | _ :: _ => {[Wine.red_csv; Wine.white_csv]}
  end.
End Web.

Arguments read_csv {table}.
Arguments file_input web {table}.

End Run.

(** ** More of the Feldman-Cousins notebook *)

Module FCMore.

(** The list [portion] that [px] builds in its loop over
    [zip(qdist,xspace)]: the points whose value is above [qobs]. *)
Definition portion_of (qdist : list Q) (qobs : Q) (xspace : list Q) : list Q :=
  map snd (List.filter (fun ix : Q * Q => Qgt_bool (fst ix) qobs) (zip qdist xspace)).

(** *** The cell that turns the intervals into line segments *)

Definition point : Type := Q * Q.
Definition segment : Type := point * point.

(** The colour [[0,1,0,1]] given to every segment. *)
Definition fc_color : list Q := [0; 1; 0; 1].

(** One turn of [for i, theta in zip(xIntervals, thetaspace)]: an empty
    interval is skipped, any other one adds the segment from [(i[0],theta)]
    to [(i[-1],theta)] and a colour. *)
Definition fc_step (acc : result (list segment * list (list Q)))
    (it : list Q * Q) : result (list segment * list (list Q)) :=
  st ← acc;
  if Nat.eqb (length (fst it)) 0 then Return st
  else
    a ← index_first (fst it);
    b ← index_last (fst it);
    Return ((fst st ++ [((a, snd it), (b, snd it))])%list, (snd st ++ [fc_color])%list).

Definition fc_segments (xIntervals : list (list Q)) (thetaspace : list Q)
    : result (list segment * list (list Q)) :=
  foldl fc_step (Return ([], [])) (zip xIntervals thetaspace).

(** The segment of a non-empty interval. *)
Definition segment_of (it : list Q * Q) : option segment :=
  match head (fst it), last (fst it) with
  | Some a, Some b => Some ((a, snd it), (b, snd it))
  | _, _ => None
  end.

(** *** The cell that takes the lower and upper end of every interval *)

(** The builtins [min] and [max] on a list either give a value or raise
    ValueError, on an empty list. *)
Inductive extremum (A : Type) : Type :=
  | Value (a : A)
  | RaiseValueError.
Arguments Value {A} a.
Arguments RaiseValueError {A}.

(** [min] keeps the first of the smallest items, [max] the first of the
    largest ones. *)
Fixpoint py_min_from (m : Q) (l : list Q) : Q :=
  match l with
  | [] => m
  | y :: r => py_min_from (if Qgt_bool m y then y else m) r
  end.

Fixpoint py_max_from (m : Q) (l : list Q) : Q :=
  match l with
  | [] => m
  | y :: r => py_max_from (if Qgt_bool y m then y else m) r
  end.

Definition py_min (l : list Q) : extremum Q :=
  match l with
  | [] => RaiseValueError
  | x :: r => Value (py_min_from x r)
  end.

Definition py_max (l : list Q) : extremum Q :=
  match l with
  | [] => RaiseValueError
  | x :: r => Value (py_max_from x r)
  end.

(** One turn of [for i in xIntervals]: [lower.append(min(i))], then
    [upper.append(max(i))]. *)
Definition bounds_step (acc : extremum (list Q * list Q)) (i : list Q)
    : extremum (list Q * list Q) :=
  match acc with
  | RaiseValueError => RaiseValueError
  | Value lu =>
      match py_min i with
      | RaiseValueError => RaiseValueError
      | Value m =>
          match py_max i with
          | RaiseValueError => RaiseValueError
          | Value M => Value ((fst lu ++ [m])%list, (snd lu ++ [M])%list)
          end
      end
  end.

Definition bounds (xIntervals : list (list Q)) : extremum (list Q * list Q) :=
  foldl bounds_step (Value ([], [])) xIntervals.

(** *** The scan of the second part *)

Section Scan.
(** The critical value. *)
Variable alpha : Q.
(** The outcome of [px(qcond,qobs)] in the turn for the [i]-th theta and the
    [j]-th measurement; it depends on the normal draws of that turn. *)
Variable pvalue : nat -> nat -> result number.

(** [p > alpha] on floats: nan is above nothing. *)
Definition above (p : number) : bool :=
  match p with
  | Finite v => Qgt_bool v alpha
  | NaN => false
  | Infinity positive => positive
  end.

(** One turn of [for mu in mymeasurements]: theta is appended when the
    value of [px] is above [alpha]. *)
Definition scan_measurement (i : nat) (theta : Q) (acc : result (list Q)) (j : nat)
    : result (list Q) :=
  xInterval ← acc;
  p ← pvalue i j;
  Return (if above p then (xInterval ++ [theta])%list else xInterval).

Definition scan_theta (i : nat) (theta : Q) (n_measurements : nat) : result (list Q) :=
  foldl (scan_measurement i theta) (Return []) (seq 0 n_measurements).

(** One turn of [for theta in thetaspace]. *)
Definition scan_step (n_measurements : nat) (acc : result (list (list Q)))
    (it : nat * Q) : result (list (list Q)) :=
  xIntervals ← acc;
  xInterval ← scan_theta (fst it) (snd it) n_measurements;
  Return (xIntervals ++ [xInterval])%list.

Definition scan (thetaspace : list Q) (n_measurements : nat) : result (list (list Q)) :=
  foldl (scan_step n_measurements) (Return [])
    (zip (seq 0 (length thetaspace)) thetaspace).
End Scan.

End FCMore.

(** ** The second simulation of the Monty Hall notebook *)

Module Ignorant.
Import Monty.

Record game := {
  prize_door : Z;
  chosen_door : Z;
  opened_door : Z;
  switch_door : Z
}.

Definition non_chosen (chosen : Z) : list Z :=
  List.filter (fun d => negb (Z.eqb d chosen)) doors.

(** Modelled from the spec: the four assignments of one game of
    [ignorant_monty], which the notebook leaves as gaps described by their
    comments.  Monty now opens a door drawn among the two that were not
    chosen, the prize door included. *)
Definition play : dist game :=
  dbind (choice doors) (fun prize =>
  dbind (choice doors) (fun chosen =>
  dbind (choice (non_chosen chosen)) (fun opened =>
  match others chosen opened with
  | switch :: _ => dret {| prize_door := prize; chosen_door := chosen;
                           opened_door := opened; switch_door := switch |}
  | [] => []
  end))).

Definition stay_win (g : game) : bool := Z.eqb (chosen_door g) (prize_door g).
Definition switch_win (g : game) : bool := Z.eqb (switch_door g) (prize_door g).
Definition open_win (g : game) : bool := Z.eqb (opened_door g) (prize_door g).

Record counters := { stay_wins : nat; switch_wins : nat; open_wins : nat }.

(** Modelled from the spec: the three checks that end the loop body, left as
    comments in the notebook; each adds one to its counter on a win. *)
Definition count (c : counters) (g : game) : counters :=
  {| stay_wins := if stay_win g then S (stay_wins c) else stay_wins c;
     switch_wins := if switch_win g then S (switch_wins c) else switch_wins c;
     open_wins := if open_win g then S (open_wins c) else open_wins c |}.

Fixpoint simulate (games : nat) (c : counters) : dist counters :=
  match games with
  | O => dret c
  | S n => dbind play (fun g => simulate n (count c g))
  end.

Definition ignorant_monty (games : nat) : dist counters :=
  simulate games {| stay_wins := 0; switch_wins := 0; open_wins := 0 |}.

(** The last line printed, [(stay_wins+switch_wins+open_wins)/games]. *)
Definition sum_of_rates (games : nat) (c : counters) : result Q :=
  py_div (Qnat (stay_wins c + switch_wins c + open_wins c)) (Qnat games).

End Ignorant.

Import Corpus Names.

(** * Properties *)

(** ** The scripts as text *)

Section CorpusFacts.

Lemma fill_marker_only_in_two (nb : notebook) :
has_fill_marker nb = true <-> nb = FeldmanCousins \/ nb = WineQuality.
Proof.
destruct nb; vm_compute; split; intros H; try discriminate; auto;
  destruct H; discriminate.
Qed.

Lemma file_access_only_in_wine (nb : notebook) :
nb <> WineQuality -> file_writes nb = [] /\ file_reads nb = [].
Proof. destruct nb; intros H; try contradiction; split; vm_compute; reflexivity. Qed.

Lemma wine_file_access :
file_writes WineQuality = ["        wget.download(f, './%s'%os.path.basename(f))"] /\
map lstrip (map code_part (file_reads WineQuality)) =
  ["if not os.path.exists('./%s'%os.path.basename(f)): ";
   "data = pd.read_csv('winequality-red.csv', delimiter=';')"].
Proof. split; vm_compute; reflexivity. Qed.

End CorpusFacts.

(** C4, as stated, fails: the Wilks notebook (and the Monty Hall one) has no
    code cell with the text FILL HERE. *)
Lemma not_every_notebook_has_fill_marker :
  ~ (forall nb : notebook, has_fill_marker nb = true).
Proof. intros H. specialize (H Wilks). vm_compute in H. discriminate. Qed.

(** C4, amended: every one of the four notebooks has a code cell with a gap
    left for the student (a FILL HERE marker, an assignment without its
    right-hand side, or a loop whose body is only comments); the gap is marked
    FILL HERE exactly in the Feldman-Cousins and the wine-quality notebooks. *)
Theorem every_notebook_has_a_gap :
  (forall nb : notebook, has_gap nb = true) /\
  (forall nb : notebook,
     has_fill_marker nb = true <-> nb = FeldmanCousins \/ nb = WineQuality) /\
  existsb (existsb dangling_assignment) (code_cells MontyHall) = true /\
  existsb has_empty_block (code_cells Wilks) = true.
Proof.
  split; [intros nb; destruct nb; vm_compute; reflexivity|].
  split; [apply fill_marker_only_in_two|].
  split; vm_compute; reflexivity.
Qed.



(** ** The download cell and the working directory *)

Section DownloadFacts.
Variable web : string -> string.

Lemma normpath_of_local (name : string) : Wine.normpath ("./" +:+ name) = name.
Proof. reflexivity. Qed.

Lemma download_file_lookup (fs : Wine.directory) (f p : string) :
  Wine.download_file web fs f !! p =
  if Wine.is_dot_name (Wine.basename f) then fs !! p
  else if decide (p = Wine.basename f)
       then Some (default (Wine.File (web f)) (fs !! p))
       else fs !! p.
Proof.
  unfold Wine.download_file, Wine.path_exists, Wine.wget_download.
  rewrite normpath_of_local.
  destruct (Wine.is_dot_name (Wine.basename f)); [reflexivity|].
  cbn [orb]. case_bool_decide as Hk.
  - destruct Hk as [v Hv]. destruct (decide (p = Wine.basename f)) as [->|Hne].
    + rewrite Hv. reflexivity.
    + reflexivity.
  - assert (Hnone : fs !! Wine.basename f = None).
    { destruct (fs !! Wine.basename f) eqn:E; [|reflexivity].
      exfalso; apply Hk; eauto. }
    destruct (decide (p = Wine.basename f)) as [->|Hne].
    + rewrite lookup_insert_eq, Hnone. reflexivity.
    + rewrite lookup_insert_ne by congruence. reflexivity.
Qed.

Lemma download_file_union (fs : Wine.directory) (f : string) :
  Wine.is_dot_name (Wine.basename f) = false ->
  Wine.download_file web fs f = fs ∪ {[Wine.basename f := Wine.File (web f)]}.
Proof.
  intros Hdot. apply map_eq; intros p.
  rewrite download_file_lookup, Hdot, lookup_union.
  destruct (decide (p = Wine.basename f)) as [->|Hne].
  - rewrite lookup_singleton_eq. destruct (fs !! Wine.basename f); reflexivity.
  - rewrite lookup_singleton_ne by congruence. destruct (fs !! p); reflexivity.
Qed.

Lemma download_file_present (fs : Wine.directory) (f : string) :
  is_Some (fs !! Wine.basename f) -> Wine.download_file web fs f = fs.
Proof.
  intros H. unfold Wine.download_file, Wine.path_exists.
  rewrite normpath_of_local, (bool_decide_eq_true_2 _ H), orb_true_r. reflexivity.
Qed.

Lemma download_cell_union (fs : Wine.directory) :
  Wine.download_cell web fs =
  fs ∪ {[Wine.red_csv := Wine.File (web (Wine.files !!! 0%nat))]}
     ∪ {[Wine.white_csv := Wine.File (web (Wine.files !!! 1%nat))]}.
Proof.
  unfold Wine.download_cell, Wine.files. cbn [foldl].
  rewrite !download_file_union by reflexivity. reflexivity.
Qed.

Lemma download_cell_dom (fs : Wine.directory) :
  dom (Wine.download_cell web fs) = dom fs ∪ {[Wine.red_csv; Wine.white_csv]}.
Proof.
  rewrite download_cell_union, !dom_union_L, !dom_singleton_L. set_solver.
Qed.

Lemma download_cell_keeps (fs : Wine.directory) :
  fs ⊆ Wine.download_cell web fs.
Proof.
  rewrite download_cell_union.
  etrans; [|apply map_union_subseteq_l]. apply map_union_subseteq_l.
Qed.

Lemma download_cell_idempotent (fs : Wine.directory) :
  Wine.download_cell web (Wine.download_cell web fs) = Wine.download_cell web fs.
Proof.
  set (fs' := Wine.download_cell web fs).
  assert (Hd : dom fs' = dom fs ∪ {[Wine.red_csv; Wine.white_csv]}) by apply download_cell_dom.
  unfold Wine.download_cell at 1, Wine.files. cbn [foldl].
  rewrite (download_file_present fs').
  - apply download_file_present. apply elem_of_dom. rewrite Hd.
    change (Wine.basename _) with Wine.white_csv. set_solver.
  - apply elem_of_dom. rewrite Hd.
    change (Wine.basename _) with Wine.red_csv. set_solver.
Qed.

Lemma download_cell_lookup_red (fs : Wine.directory) :
  Wine.download_cell web fs !! Wine.red_csv
  = Some (default (Wine.File (web (Wine.files !!! 0%nat))) (fs !! Wine.red_csv)).
Proof.
  unfold Wine.download_cell, Wine.files. cbn [foldl].
  rewrite !download_file_lookup.
  replace (Wine.is_dot_name (Wine.basename _)) with false by reflexivity.
  rewrite decide_False by (vm_compute; discriminate).
  replace (Wine.is_dot_name (Wine.basename _)) with false by reflexivity.
  rewrite decide_True by reflexivity. reflexivity.
Qed.

Lemma download_cell_lookup_other (fs : Wine.directory) (p : string) :
  p <> Wine.red_csv -> p <> Wine.white_csv ->
  Wine.download_cell web fs !! p = fs !! p.
Proof.
  intros Hr Hw. rewrite download_cell_union, !lookup_union.
  rewrite !lookup_singleton_ne by congruence.
  destruct (fs !! p); reflexivity.
Qed.
End DownloadFacts.

(** C3, as stated, fails: run from an empty working directory, the
    wine-quality notebook leaves the downloaded tables behind, so not every
    notebook leaves the state outside the kernel as it found it. *)
Lemma download_outlives_the_run :
  ~ (forall (nb : notebook) (fs : Wine.directory),
       Run.directory_after (fun _ => "csv") nb fs = fs).
Proof.
  intros H. specialize (H WineQuality ∅).
  assert (Hd : dom (Run.directory_after (fun _ => "csv") WineQuality ∅)
               = dom (∅ : Wine.directory)) by (rewrite H; reflexivity).
  cbn [Run.directory_after] in Hd. rewrite download_cell_dom in Hd.
  set_solver.
Qed.

(** C3, amended: the Feldman-Cousins, Monty Hall and Wilks notebooks have no
    cell that writes a file and leave the working directory as it was; the
    wine-quality notebook adds the two downloaded tables to it where they are
    missing, keeps every file that was there, and a rerun changes nothing
    more. *)
Theorem persistent_state_is_the_downloads :
  forall (web : string -> string) (nb : notebook) (fs : Wine.directory),
    match nb with
    | WineQuality =>
        dom (Run.directory_after web nb fs) = dom fs ∪ {[Wine.red_csv; Wine.white_csv]} /\
        fs ⊆ Run.directory_after web nb fs /\
        Run.directory_after web nb (Run.directory_after web nb fs)
          = Run.directory_after web nb fs
    | FeldmanCousins | MontyHall | Wilks =>
        file_writes nb = [] /\ Run.directory_after web nb fs = fs
    end.
Proof.
  intros web nb fs. destruct nb; cbn [Run.directory_after];
    try (split; [vm_compute; reflexivity | reflexivity]).
  split; [apply download_cell_dom|].
  split; [apply download_cell_keeps | apply download_cell_idempotent].
Qed.

(** ** Independence of the notebooks *)

Section IndependenceFacts.
Variable web : string -> string.

Lemma imports_are_external (nb : notebook) : imports_external_only nb = true.
Proof. destruct nb; vm_compute; reflexivity. Qed.

Lemma nothing_is_borrowed (a b : notebook) : a <> b -> borrowed a b = [].
Proof.
  destruct a, b; intros H; try contradiction; vm_compute; reflexivity.
Qed.

Lemma undefined_names_are_gaps (nb : notebook) : undefined_are_gaps nb = true.
Proof. destruct nb; vm_compute; reflexivity. Qed.

Lemma reads_of_cases (nb : notebook) :
  Run.reads_of nb =
  if decide (nb = WineQuality) then {[Wine.red_csv; Wine.white_csv]} else ∅.
Proof.
  unfold Run.reads_of. destruct (decide (nb = WineQuality)) as [->|Hne].
  - destruct (file_reads WineQuality) eqn:E; [vm_compute in E; discriminate|reflexivity].
  - rewrite (proj2 (file_access_only_in_wine nb Hne)). reflexivity.
Qed.

Lemma writes_of_cases (nb : notebook) :
  Run.writes_of nb =
  if decide (nb = WineQuality) then {[Wine.red_csv; Wine.white_csv]} else ∅.
Proof.
  unfold Run.writes_of. destruct (decide (nb = WineQuality)) as [->|Hne].
  - destruct (file_writes WineQuality) eqn:E; [vm_compute in E; discriminate|reflexivity].
  - rewrite (proj1 (file_access_only_in_wine nb Hne)). reflexivity.
Qed.

Lemma reads_and_writes_apart (a b : notebook) :
  a <> b -> Run.reads_of a ## Run.writes_of b.
Proof.
  intros Hab. rewrite reads_of_cases, writes_of_cases.
  destruct (decide (a = WineQuality)), (decide (b = WineQuality)); set_solver.
Qed.

(** A run changes no file outside its write set. *)
Lemma directory_after_footprint (b : notebook) (fs : Wine.directory) (p : string) :
  p ∉ Run.writes_of b -> Run.directory_after web b fs !! p = fs !! p.
Proof.
  rewrite writes_of_cases. intros Hp.
  destruct b; cbn [Run.directory_after]; try reflexivity.
  rewrite decide_True in Hp by reflexivity.
  apply download_cell_lookup_other; set_solver.
Qed.

(** What a run reads depends on the files of its read set only. *)
Lemma file_input_footprint (table : Type) (parse : string -> result table)
    (a : notebook) (fs fs' : Wine.directory) :
  (forall p, p ∈ Run.reads_of a -> fs !! p = fs' !! p) ->
  Run.file_input web parse a fs = Run.file_input web parse a fs'.
Proof.
  rewrite reads_of_cases. intros Hsame.
  destruct a; cbn [Run.file_input]; try reflexivity.
  rewrite decide_True in Hsame by reflexivity.
  f_equal. unfold Run.read_csv.
  change (Wine.normpath "winequality-red.csv") with Wine.red_csv.
  rewrite !download_cell_lookup_red, (Hsame Wine.red_csv) by set_solver.
  reflexivity.
Qed.

End IndependenceFacts.




(** ** The boundary-respecting estimator *)

Lemma Qgt_bool_true (a b : Q) : Qgt_bool a b = true <-> b < a.
Proof.
  unfold Qgt_bool. rewrite negb_true_iff. split.
  - intros H. apply Qnot_le_lt. intros Hle.
    apply Qle_bool_iff in Hle. congruence.
  - intros H. destruct (Qle_bool a b) eqn:E; [|reflexivity].
    apply Qle_bool_iff in E. exfalso. eapply Qlt_not_le; eassumption.
Qed.

Lemma Qgt_bool_false (a b : Q) : Qgt_bool a b = false <-> a <= b.
Proof.
  unfold Qgt_bool. rewrite negb_false_iff. apply Qle_bool_iff.
Qed.

Lemma py_max2_ge_l (a b : Q) : a <= py_max2 a b.
Proof.
  unfold py_max2. destruct (Qgt_bool b a) eqn:E.
  - apply Qlt_le_weak, Qgt_bool_true, E.
  - apply Qle_refl.
Qed.

Lemma py_max2_ge_r (a b : Q) : b <= py_max2 a b.
Proof.
  unfold py_max2. destruct (Qgt_bool b a) eqn:E.
  - apply Qle_refl.
  - apply Qgt_bool_false, E.
Qed.

Lemma mle_nonneg (x : Q) : 0 <= FC.mle x.
Proof. apply py_max2_ge_l. Qed.

Lemma mle_is_estimate (x : Q) : FC.mle x == x <-> 0 <= x.
Proof.
  unfold FC.mle, py_max2. destruct (Qgt_bool x 0) eqn:E.
  - split; [intros _; apply Qlt_le_weak, Qgt_bool_true, E | reflexivity].
  - apply Qgt_bool_false in E. split.
    + intros H. rewrite <- H. apply Qle_refl.
    + intros H. apply Qle_antisym; assumption.
Qed.

Lemma mle_idempotent (x : Q) : FC.mle (FC.mle x) = FC.mle x.
Proof.
  unfold FC.mle, py_max2. destruct (Qgt_bool x 0) eqn:E.
  - rewrite E. reflexivity.
  - reflexivity.
Qed.

Lemma Qnat_pos_nonzero (n : nat) : n <> 0%nat -> Qeq_bool (inject_Z (Z.of_nat n)) 0 = false.
Proof.
  intros Hn. destruct (Qeq_bool _ 0) eqn:E; [|reflexivity].
  apply Qeq_bool_eq in E. unfold Qeq in E. simpl in E. lia.
Qed.

Lemma mean_returns (xs : list Q) :
  xs <> [] -> FC.mean xs = Return (py_sum xs / inject_Z (Z.of_nat (length xs))).
Proof.
  intros Hxs. unfold FC.mean, py_div.
  rewrite Qnat_pos_nonzero; [reflexivity|]. destruct xs; [congruence|discriminate].
Qed.

Lemma mean_empty : FC.mean [] = Raise ZeroDivisionError.
Proof. reflexivity. Qed.

(** C10, as stated, fails: the vector [mle] does not always return a
    value; on an empty sample [sum(x)/len(x)] divides by zero and raises. *)
Lemma mle_of_empty_sample_raises :
  ~ (forall xs : list Q, exists v, FC.mle_sample xs = Return v /\ 0 <= v).
Proof.
  intros H. destruct (H []) as (v & Hv & _). vm_compute in Hv. discriminate.
Qed.

(** C10, amended: the scalar [mle] is nonnegative, equals its argument
    exactly when the argument is nonnegative, and is idempotent; on a
    non-empty sample the vector [mle] returns a nonnegative value, which is
    the mean exactly when the mean is nonnegative; on an empty sample it
    raises ZeroDivisionError. *)
Theorem mle_respects_boundary :
  (forall x : Q,
     0 <= FC.mle x /\ (FC.mle x == x <-> 0 <= x) /\ FC.mle (FC.mle x) = FC.mle x) /\
  (forall xs : list Q,
     xs <> [] ->
     exists m v, FC.mean xs = Return m /\ FC.mle_sample xs = Return v /\
       0 <= v /\ (v == m <-> 0 <= m)) /\
  FC.mle_sample [] = Raise ZeroDivisionError.
Proof.
  split; [|split; [|reflexivity]].
  - intros x. split; [apply mle_nonneg|].
    split; [apply mle_is_estimate | apply mle_idempotent].
  - intros xs Hxs. eexists _, _.
    split; [apply mean_returns, Hxs|].
    split; [unfold FC.mle_sample; rewrite mean_returns by exact Hxs; reflexivity|].
    set (m := py_sum xs / _). split; [apply py_max2_ge_r|].
    unfold py_max2. destruct (Qgt_bool 0 m) eqn:E.
    + apply Qgt_bool_true in E. split.
      * intros H. rewrite <- H. apply Qle_refl.
      * intros H. exfalso. eapply Qlt_not_le; eassumption.
    + apply Qgt_bool_false in E. split; [intros _; exact E | reflexivity].
Qed.

Lemma mle_respects_boundary_witness :
  (0 <= FC.mle (-3 # 2) /\ (FC.mle (-3 # 2) == (-3 # 2) <-> 0 <= (-3 # 2)) /\
   FC.mle (FC.mle (-3 # 2)) = FC.mle (-3 # 2)) /\
  [1; -2; 4] <> [] /\
  (exists m v, FC.mean [1; -2; 4] = Return m /\ FC.mle_sample [1; -2; 4] = Return v /\
     0 <= v /\ (v == m <-> 0 <= m)) /\
  FC.mle_sample [] = Raise ZeroDivisionError.
Proof.
  split; [apply (proj1 mle_respects_boundary (-3 # 2))|].
  split; [discriminate|].
  split; [apply (proj1 (proj2 mle_respects_boundary) [1; -2; 4]); discriminate|].
  apply (proj2 (proj2 mle_respects_boundary)).
Defined.

(** ** The train/test split *)

Close Scope Q_scope.

Section SplitFacts.
Context {row : Type}.
Implicit Types (df data : Wine.frame row) (order : list nat).

Lemma reset_index_length df : length (Wine.reset_index df) = length df.
Proof.
  unfold Wine.reset_index. rewrite length_zip, length_seq, length_fmap. lia.
Qed.

Lemma reset_index_labels df :
  Wine.labels (Wine.reset_index df) = seq 0 (length df).
Proof.
  unfold Wine.labels, Wine.reset_index. apply fst_zip.
  rewrite length_seq, length_fmap. lia.
Qed.

Lemma shuffle_labels order df :
  Wine.labels (Wine.shuffle order df) = seq 0 (length (Wine.shuffle order df)).
Proof.
  unfold Wine.shuffle. rewrite reset_index_labels, reset_index_length. reflexivity.
Qed.

Lemma half_le (n : nat) : Wine.half n <= n.
Proof. unfold Wine.half. apply Nat.Div0.div_le_upper_bound. lia. Qed.

Lemma data_tr_take data : Wine.data_tr data = take (Wine.half (length data)) data.
Proof. reflexivity. Qed.

Lemma data_te_drop data : Wine.data_te data = drop (Wine.half (length data)) data.
Proof.
  unfold Wine.data_te, Wine.tail.
  pose proof (half_le (length data)) as Hle.
  destruct (Nat.eqb_spec (length data - Wine.half (length data)) 0) as [E|E].
  - symmetry. apply drop_ge. lia.
  - f_equal. lia.
Qed.

Lemma split_labels data :
  Wine.labels data = seq 0 (length data) ->
  Wine.labels (Wine.data_tr data) = seq 0 (Wine.half (length data)) /\
  Wine.labels (Wine.data_te data)
    = seq (Wine.half (length data)) (length data - Wine.half (length data)).
Proof.
  intros Hl. pose proof (half_le (length data)) as Hle.
  rewrite data_tr_take, data_te_drop. unfold Wine.labels in *.
  rewrite fmap_take, fmap_drop, Hl, take_seq, drop_seq.
  split; f_equal; lia.
Qed.
End SplitFacts.

(** C9: after the shuffle, [data_tr] is the first floor(n/2) rows and
    [data_te] the last n - floor(n/2) rows of the n rows of [data]; together
    they are [data], their lengths add up to n, and every row label of [data]
    is a label of exactly one of the two parts. *)
Theorem split_is_a_partition :
  forall (row : Type) (order : list nat) (df : Wine.frame row),
    let data := Wine.shuffle order df in
    let n := length data in
    Wine.data_tr data = take (n / 2) data /\
    Wine.data_te data = drop (n - (n - n / 2)) data /\
    length (Wine.data_tr data) = (n / 2)%nat /\
    length (Wine.data_te data) = (n - n / 2)%nat /\
    (length (Wine.data_tr data) + length (Wine.data_te data))%nat = n /\
    (Wine.data_tr data ++ Wine.data_te data)%list = data /\
    forall i : nat,
      i ∈ Wine.labels data <->
      ((i ∈ Wine.labels (Wine.data_tr data)) /\ (i ∉ Wine.labels (Wine.data_te data))) \/
      ((i ∉ Wine.labels (Wine.data_tr data)) /\ (i ∈ Wine.labels (Wine.data_te data))).
Proof.
  intros row order df data n.
  pose proof (half_le n) as Hle. unfold Wine.half in Hle.
  assert (Htr : Wine.data_tr data = take (n / 2) data) by apply data_tr_take.
  assert (Hte : Wine.data_te data = drop (n / 2) data) by apply data_te_drop.
  assert (Hlab : Wine.labels data = seq 0 n) by apply shuffle_labels.
  destruct (split_labels data Hlab) as [Hl1 Hl2].
  fold n in Hl1, Hl2. unfold Wine.half in Hl1, Hl2.
  split; [exact Htr|].
  split; [rewrite Hte; f_equal; lia|].
  split; [rewrite Htr, length_take; fold n; lia|].
  split; [rewrite Hte, length_drop; fold n; lia|].
  split; [rewrite Htr, Hte, length_take, length_drop; fold n; lia|].
  split; [rewrite Htr, Hte; apply take_drop|].
  intros i. rewrite Hlab, Hl1, Hl2, !elem_of_seq. lia.
Qed.

(** ** The pseudo-experiment loop *)

Section ToyLoopFacts.
Variable statistic : nat -> Q.

Lemma toy_loop_unfold (n : nat) :
  WilksLoop.toy_loop statistic n
  = foldl (WilksLoop.toy_step statistic) (Return (WilksLoop.np_zeros n)) (seq 1 (n - 1)).
Proof. reflexivity. Qed.

(** After the toys 1..k the entries 1..k hold their statistic and every
    other entry, the first one included, is still zero. *)
Lemma toy_prefix_invariant (n k : nat) :
  k < n ->
  exists samples : list Q,
    foldl (WilksLoop.toy_step statistic) (Return (WilksLoop.np_zeros n)) (seq 1 k) = Return samples /\
    length samples = n /\
    samples !! 0 = Some 0%Q /\
    (forall t, 1 <= t <= k -> samples !! t = Some (statistic t)) /\
    (forall t, k < t < n -> samples !! t = Some 0%Q).
Proof.
  induction k as [|k IH]; intros Hk.
  - exists (WilksLoop.np_zeros n). unfold WilksLoop.np_zeros. cbn [seq foldl].
    split; [reflexivity|]. split; [apply length_replicate|].
    split; [apply lookup_replicate_2; lia|].
    split; [intros t Ht; lia|].
    intros t Ht. apply lookup_replicate_2. lia.
  - destruct IH as (s & Hrun & Hlen & H0 & Hset & Hrest); [lia|].
    exists (<[S k := statistic (S k)]> s).
    rewrite seq_S, foldl_app, Hrun. cbn [foldl]. unfold WilksLoop.toy_step at 1.
    unfold WilksLoop.store, mbind, result_bind. cbn [Nat.add].
    replace (Nat.ltb (S k) (length s)) with true
      by (symmetry; apply Nat.ltb_lt; lia).
    split; [reflexivity|]. split; [rewrite length_insert; exact Hlen|].
    split; [rewrite list_lookup_insert_ne by lia; exact H0|].
    split.
    + intros t Ht. destruct (decide (t = S k)) as [->|Hne].
      * apply list_lookup_insert_eq. lia.
      * rewrite list_lookup_insert_ne by lia. apply Hset. lia.
    + intros t Ht. rewrite list_lookup_insert_ne by lia. apply Hrest. lia.
Qed.
End ToyLoopFacts.

(** C8: for a configured count of at least one, the toy loop runs over
    [range(1, n_pseudoexperiments)], that is count minus one iterations; it
    returns an array of the configured length whose entry 0 was never
    assigned and is still 0, the other entries holding the statistic of their
    pseudo-experiment. *)
Theorem toy_loop_skips_first_entry :
  forall (statistic : nat -> Q) (n_pseudoexperiments : nat),
    1 <= n_pseudoexperiments ->
    length (WilksLoop.py_range 1 n_pseudoexperiments) = n_pseudoexperiments - 1 /\
    WilksLoop.py_range 1 n_pseudoexperiments = seq 1 (n_pseudoexperiments - 1) /\
    exists samples : list Q,
      WilksLoop.toy_loop statistic n_pseudoexperiments = Return samples /\
      length samples = n_pseudoexperiments /\
      samples !! 0 = Some 0%Q /\
      forall toy, 1 <= toy < n_pseudoexperiments -> samples !! toy = Some (statistic toy).
Proof.
  intros statistic n Hn.
  split; [unfold WilksLoop.py_range; apply length_seq|].
  split; [reflexivity|].
  destruct (toy_prefix_invariant statistic n (n - 1)) as (s & Hrun & Hlen & H0 & Hset & _);
    [lia|].
  exists s. rewrite toy_loop_unfold.
  split; [exact Hrun|]. split; [exact Hlen|]. split; [exact H0|].
  intros toy Ht. apply Hset. lia.
Qed.

Lemma toy_loop_skips_first_entry_witness :
  1 <= 4 /\
  (length (WilksLoop.py_range 1 4) = 4 - 1 /\
   WilksLoop.py_range 1 4 = seq 1 (4 - 1) /\
   exists samples : list Q,
     WilksLoop.toy_loop (fun toy => inject_Z (Z.of_nat toy)) 4 = Return samples /\
     length samples = 4 /\
     samples !! 0 = Some 0%Q /\
     forall toy, 1 <= toy < 4 -> samples !! toy = Some (inject_Z (Z.of_nat toy))).
Proof.
  split; [lia|].
  apply (toy_loop_skips_first_entry (fun toy => inject_Z (Z.of_nat toy)) 4). lia.
Defined.

(** ** Failures of [px] *)

Open Scope Q_scope.

Section Failures.

Lemma no_notebook_has_a_handler (nb : notebook) : has_handler nb = false.
Proof. destruct nb; vm_compute; reflexivity. Qed.

Lemma nothing_above (qobs : Q) (qdist xspace : list Q) :
  Forall (fun x => x <= qobs) qdist ->
  List.filter (fun ix : Q * Q => Qgt_bool (fst ix) qobs) (zip qdist xspace) = [].
Proof.
  intros Hall. revert xspace.
  induction Hall as [|x qdist Hx _ IH]; intros [|y xspace]; try reflexivity.
  cbn. replace (Qgt_bool x qobs) with false
    by (symmetry; apply Qgt_bool_false, Hx).
  apply IH.
Qed.

Lemma none_kept (qobs : Q) (qdist : list Q) :
  Forall (fun x => x <= qobs) qdist ->
  List.filter (fun x => Qgt_bool x qobs) qdist = [].
Proof.
  induction 1 as [|x qdist Hx _ IH]; [reflexivity|].
  cbn. replace (Qgt_bool x qobs) with false
    by (symmetry; apply Qgt_bool_false, Hx).
  exact IH.
Qed.

Lemma px_index_error (kind : numbers) (qdist : list Q) (qobs : Q) (xspace : list Q) :
  Forall (fun x => x <= qobs) qdist ->
  FC.px kind qdist qobs (Some xspace) = Raise IndexError.
Proof.
  intros Hall. unfold FC.px. rewrite nothing_above by exact Hall. reflexivity.
Qed.

Lemma fold_left_Qplus (l : list Q) (a : Q) : fold_left Qplus l a == a + py_sum l.
Proof.
  unfold py_sum. revert a. induction l as [|x l IH]; intros a; cbn [fold_left].
  - ring.
  - rewrite (IH (a + x)), (IH (0 + x)). ring.
Qed.

Lemma py_sum_cons (x : Q) (l : list Q) : py_sum (x :: l) == x + py_sum l.
Proof.
  unfold py_sum at 1. cbn [fold_left]. rewrite fold_left_Qplus. ring.
Qed.

Lemma py_sum_of_zeros (keep : Q -> bool) (l : list Q) :
  Forall (fun x => x == 0) l ->
  py_sum l == 0 /\ py_sum (List.filter keep l) == 0.
Proof.
  induction 1 as [|x l Hx _ [IH1 IH2]].
  - split; reflexivity.
  - cbn [List.filter]. destruct (keep x); rewrite ?py_sum_cons, ?Hx, ?IH1, ?IH2;
      split; ring.
Qed.

Lemma divide_returns (kind : numbers) (a b : Q) :
  ~ b == 0 -> divide kind a b = Return (Finite (a / b)).
Proof.
  intros Hb. assert (Hz : Qeq_bool b 0 = false).
  { destruct (Qeq_bool b 0) eqn:E; [|reflexivity].
    apply Qeq_bool_iff in E. contradiction. }
  destruct kind; unfold divide, np_div; rewrite Hz; reflexivity.
Qed.

Lemma divide_by_zero (a b : Q) :
  b == 0 -> divide PythonNumbers a b = Raise ZeroDivisionError.
Proof.
  intros Hb. unfold divide. apply Qeq_bool_iff in Hb. rewrite Hb. reflexivity.
Qed.

Lemma divide_zero_by_zero (a b : Q) :
  a == 0 -> b == 0 -> divide NumpyFloats a b = Return NaN.
Proof.
  intros Ha Hb. unfold divide, np_div.
  apply Qeq_bool_iff in Ha, Hb. rewrite Ha, Hb. reflexivity.
Qed.

End Failures.




(** ** The Monty Hall simulation *)

Section MontyFacts.
Import Monty.

Lemma expect_app {A : Type} (d1 d2 : dist A) (f : A -> Q) :
  expect (d1 ++ d2)%list f == expect d1 f + expect d2 f.
Proof.
  induction d1 as [|[x w] d1 IH]; cbn [app expect].
  - ring.
  - rewrite IH. ring.
Qed.

Lemma expect_scale {A : Type} (w : Q) (d : dist A) (f : A -> Q) :
  expect (scale w d) f == w * expect d f.
Proof.
  induction d as [|[x v] d IH]; cbn.
  - ring.
  - fold (scale w d). rewrite IH. ring.
Qed.

Lemma expect_dbind {A B : Type} (d : dist A) (k : A -> dist B) (f : B -> Q) :
  expect (dbind d k) f == expect d (fun x => expect (k x) f).
Proof.
  induction d as [|[x w] d IH]; cbn [dbind expect].
  - reflexivity.
  - rewrite expect_app, expect_scale, IH. reflexivity.
Qed.

Lemma expect_ext {A : Type} (d : dist A) (f g : A -> Q) :
  (forall x, f x == g x) -> expect d f == expect d g.
Proof.
  intros Hfg. induction d as [|[x w] d IH]; cbn [expect].
  - reflexivity.
  - rewrite IH, (Hfg x). reflexivity.
Qed.

Lemma expect_shift {A : Type} (d : dist A) (a : Q) (f : A -> Q) :
  expect d (fun x => a + f x) == a * mass d + expect d f.
Proof.
  unfold mass. induction d as [|[x w] d IH]; cbn [expect].
  - ring.
  - rewrite IH. ring.
Qed.

Lemma play_mass : mass play == 1.
Proof. vm_compute. reflexivity. Qed.

Lemma play_switch : prob play switch_win == 2 # 3.
Proof. vm_compute. reflexivity. Qed.

Lemma play_stay : prob play stay_win == 1 # 3.
Proof. vm_compute. reflexivity. Qed.

Lemma Qnat_S (n : nat) : Qnat (S n) == Qnat n + 1.
Proof.
  unfold Qnat. rewrite Nat2Z.inj_succ, <- Z.add_1_r, inject_Z_plus. reflexivity.
Qed.

Lemma Qnat_nonzero (n : nat) : (1 <= n)%nat -> ~ Qnat n == 0.
Proof.
  intros Hn H. unfold Qnat, Qeq in H. simpl in H. lia.
Qed.

Lemma count_switch (c : counters) (g : game) :
  Qnat (switch_wins (count c g))
  == Qnat (switch_wins c) + (if switch_win g then 1 else 0).
Proof.
  cbn [count switch_wins]. destruct (switch_win g).
  - apply Qnat_S.
  - ring.
Qed.

Lemma count_stay (c : counters) (g : game) :
  Qnat (stay_wins (count c g))
  == Qnat (stay_wins c) + (if stay_win g then 1 else 0).
Proof.
  cbn [count stay_wins]. destruct (stay_win g).
  - apply Qnat_S.
  - ring.
Qed.

(** The expected count after [n] games grows by the winning probability of
    one game per game. *)
Lemma expect_counter (field : counters -> nat) (win : game -> bool) (p : Q) :
  (forall c g, Qnat (field (count c g)) == Qnat (field c) + (if win g then 1 else 0)) ->
  prob play win == p ->
  forall (n : nat) (c : counters),
    expect (simulate n c) (fun c' => Qnat (field c')) == Qnat (field c) + Qnat n * p.
Proof.
  intros Hcount Hp. induction n as [|n IH]; intros c.
  - cbn [simulate dret expect]. unfold Qnat at 3. cbn. ring.
  - cbn [simulate]. rewrite expect_dbind.
    rewrite (expect_ext play _
               (fun g => (Qnat (field c) + Qnat n * p) + (if win g then 1 else 0))).
    + rewrite expect_shift, play_mass. fold (prob play win).
      rewrite Hp, Qnat_S. ring.
    + intros g. rewrite IH, Hcount. ring.
Qed.

Lemma expect_result_div {A : Type} (d : dist A) (f : A -> Q) (b : Q) :
  ~ b == 0 ->
  exists v, expect_result d (fun x => py_div (f x) b) = Return v /\
            v == expect d f / b.
Proof.
  intros Hb.
  assert (Hz : Qeq_bool b 0 = false).
  { destruct (Qeq_bool b 0) eqn:E; [|reflexivity].
    apply Qeq_bool_iff in E. contradiction. }
  set (F := fun x => py_div (f x) b).
  assert (HF : forall x, F x = Return (f x / b))
    by (intros x; unfold F, py_div; rewrite Hz; reflexivity).
  clearbody F.
  induction d as [|[x w] d (e & He & Hv)]; cbn [expect_result expect].
  - exists 0. split; [reflexivity|]. field. exact Hb.
  - rewrite HF, He. eexists. split; [reflexivity|]. rewrite Hv. field. exact Hb.
Qed.

Lemma expected_rate (field : counters -> nat) (win : game -> bool) (p : Q)
    (games : nat) :
  (forall c g, Qnat (field (count c g)) == Qnat (field c) + (if win g then 1 else 0)) ->
  prob play win == p ->
  field {| stay_wins := 0; switch_wins := 0 |} = 0%nat ->
  (1 <= games)%nat ->
  exists v,
    expect_result (monty_from_tijms games)
      (fun c => py_div (Qnat (field c)) (Qnat games)) = Return v /\
    v == p.
Proof.
  intros Hcount Hp Hinit Hgames.
  pose proof (Qnat_nonzero games Hgames) as Hnz.
  destruct (expect_result_div (monty_from_tijms games)
              (fun c => Qnat (field c)) (Qnat games) Hnz) as (v & Hv & Heq).
  exists v. split; [exact Hv|].
  rewrite Heq. unfold monty_from_tijms.
  rewrite (expect_counter field win p Hcount Hp), Hinit.
  unfold Qnat at 1. cbn [Z.of_nat]. field. exact Hnz.
Qed.
End MontyFacts.





(** * Further properties of the notebooks' code *)

(** ** The likelihood ratio [q] *)

Section QFacts.

Lemma q_on_measured_side (x theta : Q) :
  0 <= x -> FC.q x theta == - ((x - theta) * (x - theta)) / 2.
Proof.
  intros Hx. unfold FC.q. apply Qle_bool_iff in Hx. rewrite Hx.
  simpl. field.
Qed.

Lemma q_beyond_boundary (x theta : Q) :
  x < 0 -> FC.q x theta == x * theta - (theta * theta) / 2.
Proof.
  intros Hx. unfold FC.q.
  destruct (Qle_bool 0 x) eqn:E.
  - apply Qle_bool_iff in E. exfalso. eapply Qlt_not_le; eassumption.
  - simpl. field.
Qed.

Lemma square_nonneg (a : Q) : 0 <= a * a.
Proof.
  destruct (Qlt_le_dec a 0) as [Ha|Ha].
  - setoid_replace (a * a) with ((- a) * (- a)) using relation Qeq by ring.
    apply Qmult_le_0_compat; apply (Qopp_le_compat a 0), Qlt_le_weak, Ha.
  - apply Qmult_le_0_compat; exact Ha.
Qed.

Lemma q_nonpositive (x theta : Q) : 0 <= theta -> FC.q x theta <= 0.
Proof.
  intros Ht. destruct (Qlt_le_dec x 0) as [Hx|Hx].
  - rewrite q_beyond_boundary by exact Hx.
    assert (H1 : x * theta <= 0).
    { setoid_replace (x * theta) with (- ((- x) * theta)) using relation Qeq by ring.
      apply (Qopp_le_compat 0), Qmult_le_0_compat; [|exact Ht].
      apply (Qopp_le_compat x 0), Qlt_le_weak, Hx. }
    assert (H2 : 0 <= theta * theta / 2).
    { apply Qle_shift_div_l; [reflexivity|].
      setoid_replace (0 * 2) with 0 using relation Qeq by ring. apply square_nonneg. }
    setoid_replace 0 with (0 - 0) using relation Qeq by ring.
    apply Qplus_le_compat; [exact H1|].
    apply (Qopp_le_compat 0), H2.
  - rewrite q_on_measured_side by exact Hx.
    apply Qle_shift_div_r; [reflexivity|].
    setoid_replace (0 * 2) with 0 using relation Qeq by ring.
    apply (Qopp_le_compat 0), square_nonneg.
Qed.

Lemma qdist_nonpositive (theta : Q) (measurements : list Q) :
  0 <= theta -> Forall (fun v => v <= 0) (FC.qdist theta measurements).
Proof.
  intros Ht. unfold FC.qdist. apply Forall_forall. intros v Hv.
  apply list_elem_of_In, in_map_iff in Hv. destruct Hv as (x & <- & _).
  apply q_nonpositive, Ht.
Qed.

End QFacts.

(** X2: for a true value theta on the allowed side of the boundary, [q] is
    never positive and it is zero at the measurement that equals theta: the
    likelihood ratio is at most one and reaches one at [x = theta]. *)
Theorem q_at_most_zero :
  forall x theta : Q,
    0 <= theta -> FC.q x theta <= 0 /\ FC.q theta theta == 0.
Proof.
  intros x theta Ht. split; [apply q_nonpositive, Ht|].
  rewrite q_on_measured_side by exact Ht. field.
Qed.

Lemma q_at_most_zero_witness :
  0 <= (3 # 2) /\ (FC.q (-1) (3 # 2) <= 0 /\ FC.q (3 # 2) (3 # 2) == 0).
Proof.
  assert (H : 0 <= 3 # 2) by (vm_compute; discriminate).
  split; [exact H|]. apply (q_at_most_zero (-1) (3 # 2) H).
Defined.

(** X3: with theta on the allowed side of the boundary and an observed value
    [qobs] that is not negative, [px] called with an [xspace] on the values of
    [qdist] finds nothing above [qobs] and raises IndexError, for every list
    of measurements and every [xspace], on Python and on numpy numbers. *)
Theorem px_of_qdist_raises :
  forall (kind : numbers) (theta qobs : Q) (measurements xspace : list Q),
    0 <= theta -> 0 <= qobs ->
    FC.px kind (FC.qdist theta measurements) qobs (Some xspace) = Raise IndexError.
Proof.
  intros kind theta qobs ms xs Ht Hq. apply px_index_error.
  eapply Forall_impl; [apply qdist_nonpositive, Ht|].
  intros v Hv. cbn in Hv. eapply Qle_trans; eassumption.
Qed.

Lemma px_of_qdist_raises_witness :
  0 <= 1 /\ 0 <= (1 # 4) /\
  FC.px NumpyFloats (FC.qdist 1 [-2; 0; 1; 3]) (1 # 4) (Some [-2; 0; 1; 3])
    = Raise IndexError.
Proof.
  assert (H1 : 0 <= 1) by (vm_compute; discriminate).
  assert (H2 : 0 <= 1 # 4) by (vm_compute; discriminate).
  split; [exact H1|]. split; [exact H2|].
  apply (px_of_qdist_raises NumpyFloats 1 (1 # 4) [-2; 0; 1; 3] [-2; 0; 1; 3] H1 H2).
Defined.

(** ** The crude integral [px] *)

Section PxFacts.

Lemma py_sum_nonpositive (l : list Q) :
  Forall (fun v => v <= 0) l -> py_sum l <= 0.
Proof.
  induction 1 as [|x l Hx _ IH].
  - unfold py_sum; cbn. lra.
  - rewrite py_sum_cons. lra.
Qed.

Lemma py_sum_filter_bounds (keep : Q -> bool) (l : list Q) :
  Forall (fun v => v <= 0) l ->
  py_sum l <= py_sum (List.filter keep l) /\ py_sum (List.filter keep l) <= 0.
Proof.
  induction 1 as [|x l Hx _ [IH1 IH2]].
  - cbn. unfold py_sum; cbn. lra.
  - cbn [List.filter]. destruct (keep x); rewrite ?py_sum_cons; lra.
Qed.

Lemma fraction_of_negatives (num den : Q) :
  den <= num -> num <= 0 -> ~ den == 0 -> 0 <= num / den /\ num / den <= 1.
Proof.
  intros H1 H2 H3.
  assert (Hden : 0 < - den) by lra.
  assert (Heq : num / den == (- num) / (- den)) by (field; exact H3).
  rewrite Heq. split.
  - apply Qle_shift_div_l; [exact Hden | lra].
  - apply Qle_shift_div_r; [exact Hden | lra].
Qed.

Lemma py_div_returns (a b : Q) : ~ b == 0 -> py_div a b = Return (a / b).
Proof.
  intros Hb. unfold py_div. destruct (Qeq_bool b 0) eqn:E; [|reflexivity].
  apply Qeq_bool_iff in E. contradiction.
Qed.

Lemma portion_sublist (qdist : list Q) (qobs : Q) (xspace : list Q) :
  FCMore.portion_of qdist qobs xspace `sublist_of` xspace.
Proof.
  unfold FCMore.portion_of. revert xspace.
  induction qdist as [|v qdist IH]; intros [|x xspace]; cbn;
    try apply sublist_nil_l.
  destruct (Qgt_bool v qobs); cbn.
  - apply sublist_skip, IH.
  - apply sublist_cons, IH.
Qed.

Lemma sublist_keeps_Forall {A : Type} (P : A -> Prop) (l k : list A) :
  l `sublist_of` k -> Forall P k -> Forall P l.
Proof.
  induction 1 as [|x l k _ IH|x l k _ IH]; intros Hk.
  - constructor.
  - inversion Hk; subst. constructor; auto.
  - inversion Hk; subst. auto.
Qed.

Lemma sublist_keeps_sorted (l k : list Q) :
  l `sublist_of` k -> StronglySorted Qle k -> StronglySorted Qle l.
Proof.
  induction 1 as [|x l k Hs IH|x l k _ IH]; intros Hk.
  - constructor.
  - inversion Hk; subst. constructor; [auto|].
    eapply sublist_keeps_Forall; eassumption.
  - inversion Hk; subst. auto.
Qed.

Lemma sorted_between_ends (l : list Q) (b a : Q) :
  StronglySorted Qle l -> head l = Some b -> last l = Some a ->
  Forall (fun y => b <= y /\ y <= a) l.
Proof.
  intros Hs. revert b a. induction Hs as [|x r Hs IH Hx]; intros b a Hb Ha.
  - constructor.
  - cbn in Hb. injection Hb as <-. destruct r as [|y r].
    + cbn in Ha. injection Ha as <-. constructor; [lra|constructor].
    + rewrite last_cons_cons in Ha. specialize (IH y a eq_refl Ha).
      assert (Hya : y <= a) by (inversion IH; subst; tauto).
      assert (Hxy : x <= y) by (inversion Hx; subst; assumption).
      constructor; [lra|].
      apply Forall_forall. intros z Hz.
      rewrite Forall_forall in IH, Hx. split; [apply Hx, Hz | apply IH, Hz].
Qed.

Lemma index_first_head (l : list Q) :
  index_first l = match head l with Some x => Return x | None => Raise IndexError end.
Proof. destruct l; reflexivity. Qed.

End PxFacts.

(** X4: on values that are all at most zero, as [qdist] gives them for a
    theta on the allowed side of the boundary, and whose sum is not zero,
    [px] without [xspace] returns a fraction between 0 and 1, and so does the
    [px] of the second part, on Python and on numpy numbers. *)
Theorem px_is_a_fraction :
  forall (kind : numbers) (qdist : list Q) (qobs : Q),
    Forall (fun v => v <= 0) qdist ->
    ~ py_sum qdist == 0 ->
    (exists v, FC.px kind qdist qobs None = Return (Finite v) /\ 0 <= v /\ v <= 1) /\
    (exists v, FC.px_sample kind qdist qobs = Return (Finite v) /\ 0 <= v /\ v <= 1).
Proof.
  intros kind qdist qobs Hall Hsum.
  destruct qdist as [|x l]; [exfalso; apply Hsum; reflexivity|].
  unfold FC.px, FC.px_sample. rewrite !divide_returns by exact Hsum.
  split; eexists; (split; [reflexivity|]);
    apply fraction_of_negatives; try exact Hsum;
    apply py_sum_filter_bounds, Hall.
Qed.

Lemma px_is_a_fraction_witness :
  Forall (fun v => v <= 0) (FC.qdist 1 [0; 1; 2]) /\
  ~ py_sum (FC.qdist 1 [0; 1; 2]) == 0 /\
  (exists v, FC.px NumpyFloats (FC.qdist 1 [0; 1; 2]) (-1 # 4) None = Return (Finite v)
             /\ 0 <= v /\ v <= 1) /\
  (exists v, FC.px_sample NumpyFloats (FC.qdist 1 [0; 1; 2]) (-1 # 4) = Return (Finite v)
             /\ 0 <= v /\ v <= 1).
Proof.
  assert (H1 : Forall (fun v => v <= 0) (FC.qdist 1 [0; 1; 2])).
  { repeat constructor; vm_compute; discriminate. }
  assert (H2 : ~ py_sum (FC.qdist 1 [0; 1; 2]) == 0).
  { vm_compute. discriminate. }
  split; [exact H1|]. split; [exact H2|].
  apply (px_is_a_fraction NumpyFloats (FC.qdist 1 [0; 1; 2]) (-1 # 4) H1 H2).
Defined.

(** X5: with an [xspace] in ascending order, [px] called with it raises
    IndexError exactly when no point of [zip(qdist,xspace)] has a value above
    [qobs]; otherwise it returns a fraction between 0 and 1 when the first
    and the last point of [xspace] differ, and when they coincide it raises
    ZeroDivisionError on Python numbers and returns nan on numpy numbers. *)
Theorem px_over_sorted_xspace :
  forall (kind : numbers) (qdist : list Q) (qobs : Q) (xspace : list Q),
    StronglySorted Qle xspace ->
    (FC.px kind qdist qobs (Some xspace) = Raise IndexError
     <-> FCMore.portion_of qdist qobs xspace = []) /\
    match FC.px kind qdist qobs (Some xspace) with
    | Return (Finite v) =>
        0 <= v /\ v <= 1 /\
        exists c d, last xspace = Some c /\ head xspace = Some d /\ ~ c == d
    | Return NaN =>
        kind = NumpyFloats /\
        exists c d, last xspace = Some c /\ head xspace = Some d /\ c == d
    | Return (Infinity _) => False
    | Raise e =>
        e = IndexError \/
        (e = ZeroDivisionError /\ kind = PythonNumbers /\
         exists c d, last xspace = Some c /\ head xspace = Some d /\ c == d)
    end.
Proof.
  intros kind qdist qobs xspace Hsorted.
  pose proof (portion_sublist qdist qobs xspace) as Hsub.
  unfold FC.px. fold (FCMore.portion_of qdist qobs xspace).
  destruct (FCMore.portion_of qdist qobs xspace) as [|b p] eqn:Hp.
  - split; [split; reflexivity|]. left. reflexivity.
  - assert (Hlast : is_Some (last (b :: p))) by (apply last_is_Some; discriminate).
    destruct Hlast as [a Ha].
    destruct xspace as [|d xs]; [apply sublist_nil_r in Hsub; discriminate|].
    assert (Hlastx : is_Some (last (d :: xs))) by (apply last_is_Some; discriminate).
    destruct Hlastx as [c Hc].
    pose proof (sorted_between_ends _ d c Hsorted eq_refl Hc) as Hends.
    pose proof (sublist_keeps_Forall _ _ _ Hsub Hends) as Hin.
    pose proof (sorted_between_ends _ b a
                  (sublist_keeps_sorted _ _ Hsub Hsorted) eq_refl Ha) as Hpor.
    assert (Hb : d <= b /\ b <= c) by (inversion Hin; subst; assumption).
    assert (Hba : b <= a) by (inversion Hpor; subst; tauto).
    assert (Hac : a <= c).
    { rewrite Forall_forall in Hin. apply Hin.
      apply last_Some_elem_of, Ha. }
    unfold index_last. rewrite Ha, Hc. cbn [mbind result_bind index_first].
    destruct (Qeq_bool (c - d) 0) eqn:E.
    + assert (Hcd : c == d) by (apply Qeq_bool_iff in E; lra).
      assert (Hab0 : Qeq_bool (a - b) 0 = true) by (apply Qeq_bool_iff; lra).
      destruct kind; unfold divide, np_div; rewrite E, ?Hab0.
      * split; [split; discriminate|]. right.
        split; [reflexivity|]. split; [reflexivity|]. exists c, d. auto.
      * split; [split; discriminate|].
        split; [reflexivity|]. exists c, d. auto.
    + assert (Hne : ~ c - d == 0).
      { intros H. apply Qeq_bool_iff in H. congruence. }
      assert (Hpos : 0 < c - d) by lra.
      rewrite divide_returns by exact Hne.
      split; [split; discriminate|].
      split; [apply Qle_shift_div_l; [exact Hpos | lra]|].
      split; [apply Qle_shift_div_r; [exact Hpos | lra]|].
      exists c, d. split; [reflexivity|]. split; [reflexivity|]. lra.
Qed.

Lemma px_over_sorted_xspace_witness :
  StronglySorted Qle [0; 1; 2] /\
  (FC.px NumpyFloats (FC.qdist 1 [0; 1; 2]) (-1 # 4) (Some [0; 1; 2]) = Raise IndexError
   <-> FCMore.portion_of (FC.qdist 1 [0; 1; 2]) (-1 # 4) [0; 1; 2] = []) /\
  match FC.px NumpyFloats (FC.qdist 1 [0; 1; 2]) (-1 # 4) (Some [0; 1; 2]) with
  | Return (Finite v) =>
      0 <= v /\ v <= 1 /\
      exists c d, last [0; 1; 2] = Some c /\ head [0; 1; 2] = Some d /\ ~ c == d
  | Return NaN =>
      NumpyFloats = NumpyFloats /\
      exists c d, last [0; 1; 2] = Some c /\ head [0; 1; 2] = Some d /\ c == d
  | Return (Infinity _) => False
  | Raise e =>
      e = IndexError \/
      (e = ZeroDivisionError /\ NumpyFloats = PythonNumbers /\
       exists c d, last [0; 1; 2] = Some c /\ head [0; 1; 2] = Some d /\ c == d)
  end.
Proof.
  assert (H : StronglySorted Qle [0; 1; 2]).
  { repeat constructor; vm_compute; discriminate. }
  split; [exact H|].
  apply (px_over_sorted_xspace NumpyFloats (FC.qdist 1 [0; 1; 2]) (-1 # 4) [0; 1; 2] H).
Defined.

(** ** The plotting cells *)

Section PlotFacts.
Import FCMore.

Lemma fc_step_spec (segs : list segment) (cols : list (list Q)) (it : list Q * Q) :
  fc_step (Return (segs, cols)) it =
  Return ((segs ++ option_list (segment_of it))%list,
          (cols ++ replicate (length (option_list (segment_of it))) fc_color)%list).
Proof.
  destruct it as [[|a r] theta]; unfold fc_step, segment_of; cbn [fst snd].
  - cbn. rewrite !app_nil_r. reflexivity.
  - assert (Hlast : is_Some (last (a :: r))) by (apply last_is_Some; discriminate).
    destruct Hlast as [b Hb]. unfold index_last. cbn [head]. rewrite Hb.
    reflexivity.
Qed.

Lemma segment_of_cases (i : list Q) (theta : Q) :
  match i with
  | [] => segment_of (i, theta) = None
  | a :: _ => exists b, last i = Some b /\ segment_of (i, theta) = Some ((a, theta), (b, theta))
  end.
Proof.
  destruct i as [|a r]; [reflexivity|].
  assert (Hlast : is_Some (last (a :: r))) by (apply last_is_Some; discriminate).
  destruct Hlast as [b Hb]. exists b. split; [exact Hb|].
  unfold segment_of. cbn [fst snd head]. rewrite Hb. reflexivity.
Qed.

Lemma fc_loop_spec (its : list (list Q * Q)) (segs : list segment)
    (cols : list (list Q)) :
  foldl fc_step (Return (segs, cols)) its =
  Return ((segs ++ omap segment_of its)%list,
          (cols ++ replicate (length (omap segment_of its)) fc_color)%list).
Proof.
  revert segs cols. induction its as [|it its IH]; intros segs cols; cbn [foldl].
  - cbn. rewrite !app_nil_r. reflexivity.
  - rewrite fc_step_spec, IH. cbn [omap list_omap].
    destruct (segment_of it) as [sg|]; cbn.
    + rewrite <- !app_assoc. reflexivity.
    + rewrite !app_nil_r. reflexivity.
Qed.

Lemma py_min_from_le (m : Q) (l : list Q) : py_min_from m l <= m.
Proof.
  revert m. induction l as [|y r IH]; intros m; cbn; [lra|].
  destruct (Qgt_bool m y) eqn:E.
  - apply Qgt_bool_true in E. specialize (IH y). lra.
  - apply IH.
Qed.

Lemma py_max_from_ge (m : Q) (l : list Q) : m <= py_max_from m l.
Proof.
  revert m. induction l as [|y r IH]; intros m; cbn; [lra|].
  destruct (Qgt_bool y m) eqn:E.
  - apply Qgt_bool_true in E. specialize (IH y). lra.
  - apply IH.
Qed.

Lemma bounds_raises_on (xIntervals : list (list Q)) :
  foldl bounds_step RaiseValueError xIntervals = RaiseValueError.
Proof. induction xIntervals; [reflexivity|assumption]. Qed.

Lemma bounds_loop_spec (xIntervals : list (list Q)) (lo up : list Q) :
  Forall (fun i => i <> []) xIntervals ->
  Forall2 Qle lo up ->
  exists lo' up',
    foldl bounds_step (Value (lo, up)) xIntervals = Value (lo', up') /\
    length lo' = (length lo + length xIntervals)%nat /\
    length up' = (length up + length xIntervals)%nat /\
    Forall2 Qle lo' up'.
Proof.
  intros Hne. revert lo up. induction Hne as [|i its Hi _ IH]; intros lo up Hle.
  - exists lo, up. cbn. repeat split; try lia. exact Hle.
  - destruct i as [|x r]; [congruence|]. cbn [foldl bounds_step py_min py_max fst snd].
    destruct (IH (lo ++ [py_min_from x r])%list (up ++ [py_max_from x r])%list)
      as (lo' & up' & Hrun & Hl & Hu & Hall).
    + apply Forall2_app; [exact Hle|]. constructor; [|constructor].
      pose proof (py_min_from_le x r). pose proof (py_max_from_ge x r). lra.
    + exists lo', up'. rewrite Hrun. rewrite length_app in Hl, Hu. cbn in *.
      repeat split; try lia. exact Hall.
Qed.

Lemma bounds_loop_raises (xIntervals : list (list Q)) (acc : extremum (list Q * list Q)) :
  Exists (fun i => i = []) xIntervals ->
  foldl bounds_step acc xIntervals = RaiseValueError.
Proof.
  intros Hex. revert acc. induction Hex as [i its Hi|i its _ IH]; intros acc.
  - subst i. cbn [foldl]. destruct acc as [lu|]; cbn; apply bounds_raises_on.
  - cbn [foldl]. apply IH.
Qed.

End PlotFacts.

(** X6: the cell that builds the line segments never raises: it returns one
    segment and one colour for every non-empty interval of
    [zip(xIntervals, thetaspace)], in order, each segment running at the
    height theta from the first to the last item of its interval; empty
    intervals are skipped. *)
Theorem fc_segments_never_fail :
  forall (xIntervals : list (list Q)) (thetaspace : list Q),
    let kept := omap FCMore.segment_of (zip xIntervals thetaspace) in
    FCMore.fc_segments xIntervals thetaspace
      = Return (kept, replicate (length kept) FCMore.fc_color) /\
    length kept
      = length (List.filter (fun it : list Q * Q => negb (Nat.eqb (length (fst it)) 0))
                  (zip xIntervals thetaspace)) /\
    Forall (fun sg : FCMore.segment => snd (fst sg) = snd (snd sg)) kept.
Proof.
  intros xIntervals thetaspace kept. split; [|split].
  - unfold FCMore.fc_segments. rewrite fc_loop_spec. reflexivity.
  - subst kept. induction (zip xIntervals thetaspace) as [|[i theta] its IH];
      [reflexivity|].
    cbn [omap list_omap List.filter]. pose proof (segment_of_cases i theta) as Hc.
    destruct i as [|a r].
    + rewrite Hc. cbn. exact IH.
    + destruct Hc as (b & _ & ->). cbn. f_equal. exact IH.
  - subst kept. induction (zip xIntervals thetaspace) as [|[i theta] its IH];
      [constructor|].
    cbn [omap list_omap]. pose proof (segment_of_cases i theta) as Hc.
    destruct i as [|a r].
    + rewrite Hc. exact IH.
    + destruct Hc as (b & _ & ->). constructor; [reflexivity|exact IH].
Qed.

(** X7: the cell that takes [min] and [max] of every interval returns, when
    no interval is empty, one lower and one upper end per interval with each
    lower end at most its upper end; when some interval is empty it raises
    ValueError and returns nothing. *)
Theorem bounds_need_nonempty_intervals :
  forall xIntervals : list (list Q),
    (Forall (fun i => i <> []) xIntervals ->
     exists lower upper,
       FCMore.bounds xIntervals = FCMore.Value (lower, upper) /\
       length lower = length xIntervals /\
       length upper = length xIntervals /\
       Forall2 Qle lower upper) /\
    (Exists (fun i => i = []) xIntervals ->
     FCMore.bounds xIntervals = FCMore.RaiseValueError).
Proof.
  intros xIntervals. split.
  - intros Hne.
    destruct (bounds_loop_spec xIntervals [] [] Hne) as (lo & up & H1 & H2 & H3 & H4);
      [constructor|].
    exists lo, up. repeat split; assumption.
  - apply bounds_loop_raises.
Qed.

Lemma bounds_need_nonempty_intervals_witness :
  (Forall (fun i => i <> []) [[3; 1; 2]; [5]] /\
   exists lower upper,
     FCMore.bounds [[3; 1; 2]; [5]] = FCMore.Value (lower, upper) /\
     length lower = length [[3; 1; 2]; [5]] /\
     length upper = length [[3; 1; 2]; [5]] /\
     Forall2 Qle lower upper) /\
  (Exists (fun i => i = []) [[3; 1; 2]; []] /\
   FCMore.bounds [[3; 1; 2]; []] = FCMore.RaiseValueError).
Proof.
  assert (H1 : Forall (fun i : list Q => i <> []) [[3; 1; 2]; [5]])
    by (repeat constructor; discriminate).
  assert (H2 : Exists (fun i : list Q => i = []) [[3; 1; 2]; []])
    by (apply Exists_cons_tl, Exists_cons_hd; reflexivity).
  split; split; [exact H1 | | exact H2 | ].
  - exact (proj1 (bounds_need_nonempty_intervals [[3; 1; 2]; [5]]) H1).
  - exact (proj2 (bounds_need_nonempty_intervals [[3; 1; 2]; []]) H2).
Defined.

(** ** The scan of the second part *)

Section ScanFacts.
Import FCMore.
Variable alpha : Q.
Variable pvalue : nat -> nat -> result number.

Lemma scan_measurement_raised (i : nat) (theta : Q) (e : exn) (js : list nat) :
  foldl (scan_measurement alpha pvalue i theta) (Raise e) js = Raise e.
Proof. induction js; [reflexivity|assumption]. Qed.

Lemma scan_theta_copies (i : nat) (theta : Q) (js : list nat) (k0 : nat) (xI : list Q) :
  foldl (scan_measurement alpha pvalue i theta) (Return (replicate k0 theta)) js
    = Return xI ->
  exists k, (k0 <= k <= k0 + length js)%nat /\ xI = replicate k theta.
Proof.
  revert k0. induction js as [|j js IH]; intros k0 Hrun; cbn [foldl] in Hrun.
  - injection Hrun as <-. exists k0. split; [cbn; lia | reflexivity].
  - unfold scan_measurement at 2 in Hrun. cbn in Hrun.
    destruct (pvalue i j) as [p|e]; cbn in Hrun.
    + destruct (above alpha p).
      * replace (replicate k0 theta ++ [theta])%list with (replicate (S k0) theta) in Hrun
          by (rewrite replicate_S_end; reflexivity).
        destruct (IH _ Hrun) as (k & Hk & ->). exists k. split; [cbn; lia|reflexivity].
      * destruct (IH _ Hrun) as (k & Hk & ->). exists k. split; [cbn; lia|reflexivity].
    + rewrite scan_measurement_raised in Hrun. discriminate.
Qed.

Lemma scan_step_raised (n : nat) (e : exn) (its : list (nat * Q)) :
  foldl (scan_step alpha pvalue n) (Raise e) its = Raise e.
Proof. induction its; [reflexivity|assumption]. Qed.

Lemma scan_loop_copies (n : nat) (its : list (nat * Q)) (acc xIs : list (list Q)) :
  foldl (scan_step alpha pvalue n) (Return acc) its = Return xIs ->
  exists new, xIs = (acc ++ new)%list /\
    Forall2 (fun xI theta => exists k, (k <= n)%nat /\ xI = replicate k theta)
      new (its.*2).
Proof.
  revert acc. induction its as [|[i theta] its IH]; intros acc Hrun; cbn [foldl] in Hrun.
  - injection Hrun as <-. exists []. rewrite app_nil_r. split; [reflexivity|constructor].
  - unfold scan_step at 2 in Hrun. cbn in Hrun.
    destruct (scan_theta alpha pvalue i theta n) as [xI|e] eqn:Hth; cbn in Hrun.
    + destruct (IH _ Hrun) as (new & -> & Hall).
      exists (xI :: new). rewrite <- app_assoc. split; [reflexivity|].
      cbn. constructor; [|exact Hall].
      unfold scan_theta in Hth.
      destruct (scan_theta_copies i theta (seq 0 n) 0 xI Hth) as (k & Hk & ->).
      rewrite length_seq in Hk. exists k. split; [lia|reflexivity].
    + rewrite scan_step_raised in Hrun. discriminate.
Qed.

Lemma py_min_from_copies (theta : Q) (k : nat) :
  py_min_from theta (replicate k theta) = theta /\
  py_max_from theta (replicate k theta) = theta.
Proof.
  assert (H : Qgt_bool theta theta = false) by (apply Qgt_bool_false; lra).
  induction k as [|k [IH1 IH2]]; [split; reflexivity|].
  cbn. rewrite H. split; assumption.
Qed.

Lemma bounds_of_copies (xIs : list (list Q)) (thetas lo0 up0 lo up : list Q) :
  Forall2 (fun xI theta => exists k : nat, xI = replicate k theta) xIs thetas ->
  foldl bounds_step (Value (lo0, up0)) xIs = Value (lo, up) ->
  lo = (lo0 ++ thetas)%list /\ up = (up0 ++ thetas)%list.
Proof.
  intros Hall. revert lo0 up0.
  induction Hall as [|xI theta xIs thetas (k & ->) _ IH]; intros lo0 up0 Hrun;
    cbn [foldl] in Hrun.
  - injection Hrun as <- <-. rewrite !app_nil_r. split; reflexivity.
  - destruct k as [|k].
    + cbn in Hrun. rewrite bounds_raises_on in Hrun. discriminate.
    + cbn [replicate bounds_step py_min py_max fst snd] in Hrun.
      destruct (py_min_from_copies theta k) as [-> ->] in Hrun.
      destruct (IH _ _ Hrun) as [-> ->].
      rewrite <- !app_assoc. split; reflexivity.
Qed.

End ScanFacts.

(** X8: in the scan of the second part every interval that comes out is a
    run of copies of its own theta, at most one per measurement, and there is
    one interval per theta; so when the following cell gets a lower and an
    upper end from every interval, both ends are the list of thetas
    itself. *)
Theorem scan_intervals_hold_theta :
  forall (alpha : Q) (pvalue : nat -> nat -> result number) (thetaspace : list Q)
         (n_measurements : nat) (xIntervals : list (list Q)),
    FCMore.scan alpha pvalue thetaspace n_measurements = Return xIntervals ->
    Forall2 (fun xI theta => exists k, (k <= n_measurements)%nat /\ xI = replicate k theta)
      xIntervals thetaspace /\
    (forall lower upper,
       FCMore.bounds xIntervals = FCMore.Value (lower, upper) ->
       lower = thetaspace /\ upper = thetaspace).
Proof.
  intros alpha pvalue thetaspace n xIs Hrun. unfold FCMore.scan in Hrun.
  destruct (scan_loop_copies alpha pvalue n _ [] xIs Hrun) as (new & -> & Hall).
  rewrite snd_zip in Hall by (rewrite length_seq; lia). cbn [app].
  split; [exact Hall|].
  intros lower upper Hb.
  apply (bounds_of_copies new thetaspace [] [] lower upper); [|exact Hb].
  eapply Forall2_impl; [exact Hall|]. intros xI theta (k & _ & ->). exists k. reflexivity.
Qed.

Lemma scan_intervals_hold_theta_witness :
  FCMore.scan (1 # 2) (fun i j => Return (Finite (inject_Z (Z.of_nat j)))) [5; 6] 3
    = Return [[5; 5]; [6; 6]] /\
  Forall2 (fun xI theta => exists k, (k <= 3)%nat /\ xI = replicate k theta)
    [[5; 5]; [6; 6]] [5; 6] /\
  (forall lower upper,
     FCMore.bounds [[5; 5]; [6; 6]] = FCMore.Value (lower, upper) ->
     lower = [5; 6] /\ upper = [5; 6]).
Proof.
  assert (H : FCMore.scan (1 # 2) (fun i j => Return (Finite (inject_Z (Z.of_nat j)))) [5; 6] 3
              = Return [[5; 5]; [6; 6]]) by reflexivity.
  split; [exact H|].
  apply (scan_intervals_hold_theta (1 # 2) (fun i j => Return (Finite (inject_Z (Z.of_nat j))))
           [5; 6] 3 [[5; 5]; [6; 6]] H).
Defined.

(** ** The counters of the two Monty Hall simulations *)

Section CounterFacts.
Import Monty.

Lemma Forall_scale {A : Type} (P : A -> Prop) (w : Q) (d : dist A) :
  Forall (fun xw => P (fst xw)) d -> Forall (fun xw => P (fst xw)) (scale w d).
Proof.
  induction 1 as [|[x v] d Hx _ IH]; cbn; constructor; assumption.
Qed.

Lemma Forall_dbind {A B : Type} (R : A -> Prop) (P : B -> Prop)
    (d : dist A) (k : A -> dist B) :
  Forall (fun xw => R (fst xw)) d ->
  (forall x, R x -> Forall (fun yw => P (fst yw)) (k x)) ->
  Forall (fun yw => P (fst yw)) (dbind d k).
Proof.
  intros Hd Hk. induction Hd as [|[x w] d Hx _ IH]; cbn [dbind].
  - constructor.
  - apply Forall_app. split; [apply Forall_scale, Hk, Hx | exact IH].
Qed.

Lemma mass_dbind {A B : Type} (d : dist A) (k : A -> dist B) :
  (forall x, mass (k x) == 1) -> mass (dbind d k) == mass d.
Proof.
  intros Hk. unfold mass. rewrite expect_dbind.
  apply expect_ext. intros x. apply Hk.
Qed.

Lemma forallb_Forall_fst {A : Type} (f : A -> bool) (d : dist A) :
  forallb (fun xw => f (fst xw)) d = true ->
  Forall (fun xw => f (fst xw) = true) d.
Proof.
  intros H. apply Forall_forall. intros xw Hin.
  rewrite forallb_forall in H. apply H, list_elem_of_In, Hin.
Qed.

Lemma one_winner_per_game :
  Forall (fun gw => xorb (stay_win (fst gw)) (switch_win (fst gw)) = true) play.
Proof.
  apply (forallb_Forall_fst (fun g => xorb (stay_win g) (switch_win g))).
  vm_compute. reflexivity.
Qed.

Lemma simulate_mass (n : nat) (c : counters) : mass (simulate n c) == 1.
Proof.
  revert c. induction n as [|n IH]; intros c; cbn [simulate].
  - vm_compute. reflexivity.
  - rewrite mass_dbind; [apply play_mass|]. intros g. apply IH.
Qed.

Lemma simulate_counts (n : nat) (c : counters) :
  Forall (fun cw => (stay_wins (fst cw) + switch_wins (fst cw)
                     = stay_wins c + switch_wins c + n)%nat)
    (simulate n c).
Proof.
  revert c. induction n as [|n IH]; intros c; cbn [simulate].
  - constructor; [cbn; lia|constructor].
  - apply (Forall_dbind
             (fun g => xorb (stay_win g) (switch_win g) = true)
             (fun c' => (stay_wins c' + switch_wins c'
                         = stay_wins c + switch_wins c + S n)%nat));
      [apply one_winner_per_game|].
    intros g Hg. eapply Forall_impl; [apply IH|].
    intros [c' w] Hc'. cbn [fst] in *. rewrite Hc'. cbn [count stay_wins switch_wins].
    destruct (stay_win g), (switch_win g); cbn in Hg; try discriminate; lia.
Qed.

Lemma ignorant_play_mass : mass Ignorant.play == 1.
Proof. vm_compute. reflexivity. Qed.

Lemma ignorant_one_winner :
  Forall (fun gw =>
            match Ignorant.stay_win (fst gw), Ignorant.switch_win (fst gw),
                  Ignorant.open_win (fst gw) with
            | true, false, false | false, true, false | false, false, true => true
            | _, _, _ => false
            end = true) Ignorant.play.
Proof.
  apply (forallb_Forall_fst
           (fun g => match Ignorant.stay_win g, Ignorant.switch_win g,
                           Ignorant.open_win g with
                     | true, false, false | false, true, false
                     | false, false, true => true
                     | _, _, _ => false
                     end)).
  vm_compute. reflexivity.
Qed.

Lemma ignorant_counts (n : nat) (c : Ignorant.counters) :
  Forall (fun cw =>
            (Ignorant.stay_wins (fst cw) + Ignorant.switch_wins (fst cw)
             + Ignorant.open_wins (fst cw)
             = Ignorant.stay_wins c + Ignorant.switch_wins c + Ignorant.open_wins c + n)%nat)
    (Ignorant.simulate n c).
Proof.
  revert c. induction n as [|n IH]; intros c; cbn [Ignorant.simulate].
  - constructor; [cbn; lia|constructor].
  - apply (Forall_dbind
             (fun g => match Ignorant.stay_win g, Ignorant.switch_win g,
                             Ignorant.open_win g with
                       | true, false, false | false, true, false
                       | false, false, true => true
                       | _, _, _ => false
                       end = true)
             (fun c' => (Ignorant.stay_wins c' + Ignorant.switch_wins c'
                         + Ignorant.open_wins c'
                         = Ignorant.stay_wins c + Ignorant.switch_wins c
                           + Ignorant.open_wins c + S n)%nat));
      [apply ignorant_one_winner|].
    intros g Hg. eapply Forall_impl; [apply IH|].
    intros [c' w] Hc'. cbn [fst] in *. rewrite Hc'.
    cbn [Ignorant.count Ignorant.stay_wins Ignorant.switch_wins Ignorant.open_wins].
    destruct (Ignorant.stay_win g), (Ignorant.switch_win g), (Ignorant.open_win g);
      try discriminate; lia.
Qed.

Lemma ignorant_simulate_mass (n : nat) (c : Ignorant.counters) :
  mass (Ignorant.simulate n c) == 1.
Proof.
  revert c. induction n as [|n IH]; intros c; cbn [Ignorant.simulate].
  - vm_compute. reflexivity.
  - rewrite mass_dbind; [apply ignorant_play_mass|]. intros g. apply IH.
Qed.

End CounterFacts.

(** X9: in [monty_from_tijms], completed as its comments say, exactly one of
    the two strategies wins each game: on every outcome of the simulation the
    two counters add up to the number of games, and the outcomes of any
    number of games carry total probability one (no draw fails). *)
Theorem monty_counters_add_up :
  forall games : nat,
    Monty.mass (Monty.monty_from_tijms games) == 1 /\
    Forall (fun cw => (Monty.stay_wins (fst cw) + Monty.switch_wins (fst cw))%nat = games)
      (Monty.monty_from_tijms games).
Proof.
  intros games. split; [apply simulate_mass|].
  eapply Forall_impl; [apply simulate_counts|].
  intros [c w] H. cbn in *. lia.
Qed.

(** X10: in [ignorant_monty], completed as its comments say, staying,
    switching and the opened door each win a game with probability 1/3, and
    exactly one of the three wins; so for at least one game the three
    counters add up to the number of games on every outcome and the printed
    sum of rates is 1. *)
Theorem ignorant_monty_thirds :
  forall games : nat,
    (1 <= games)%nat ->
    Monty.prob Ignorant.play Ignorant.stay_win == 1 # 3 /\
    Monty.prob Ignorant.play Ignorant.switch_win == 1 # 3 /\
    Monty.prob Ignorant.play Ignorant.open_win == 1 # 3 /\
    Monty.mass (Ignorant.ignorant_monty games) == 1 /\
    Forall (fun cw =>
              (Ignorant.stay_wins (fst cw) + Ignorant.switch_wins (fst cw)
               + Ignorant.open_wins (fst cw))%nat = games /\
              exists v, Ignorant.sum_of_rates games (fst cw) = Return v /\ v == 1)
      (Ignorant.ignorant_monty games).
Proof.
  intros games Hgames.
  split; [vm_compute; reflexivity|]. split; [vm_compute; reflexivity|].
  split; [vm_compute; reflexivity|]. split; [apply ignorant_simulate_mass|].
  eapply Forall_impl; [apply ignorant_counts|].
  intros [c w] H. cbn [fst] in *. cbn in H. split; [lia|].
  unfold Ignorant.sum_of_rates. rewrite H. cbn [Nat.add].
  pose proof (Qnat_nonzero games Hgames) as Hnz.
  rewrite py_div_returns by exact Hnz.
  eexists. split; [reflexivity|]. field. exact Hnz.
Qed.

Lemma ignorant_monty_thirds_witness :
  (1 <= 2)%nat /\
  (Monty.prob Ignorant.play Ignorant.stay_win == 1 # 3 /\
   Monty.prob Ignorant.play Ignorant.switch_win == 1 # 3 /\
   Monty.prob Ignorant.play Ignorant.open_win == 1 # 3 /\
   Monty.mass (Ignorant.ignorant_monty 2) == 1 /\
   Forall (fun cw =>
             (Ignorant.stay_wins (fst cw) + Ignorant.switch_wins (fst cw)
              + Ignorant.open_wins (fst cw))%nat = 2%nat /\
             exists v, Ignorant.sum_of_rates 2 (fst cw) = Return v /\ v == 1)
     (Ignorant.ignorant_monty 2)).
Proof.
  split; [lia|]. apply (ignorant_monty_thirds 2). lia.
Defined.

(** ** More on the download cell and the split *)

Close Scope Q_scope.
Open Scope list_scope.

Section MoreDownloadFacts.

Lemma basename_has_no_slash (p : string) : contains "/" (Wine.basename p) = false.
Proof.
  induction p as [|c p IH]; [reflexivity|].
  cbn [Wine.basename]. destruct (contains "/" (String c p)) eqn:E; [exact IH|exact E].
Qed.

End MoreDownloadFacts.

(** X11: for any URL, the download step touches at most the entry of the
    working directory named by the URL's basename, a name without a slash.
    When that name is empty, [.] or [..] (a URL that ends in a slash, say)
    the path exists and nothing is downloaded.  Otherwise an entry of that
    name, file or subdirectory, is kept as it is, a missing one becomes a
    file with the downloaded content, and every other entry is unchanged.
    Doing the step twice is the same as doing it once. *)
Theorem download_file_touches_one_name :
  forall (web : string -> string) (fs : Wine.directory) (f : string),
    contains "/" (Wine.basename f) = false /\
    (if Wine.is_dot_name (Wine.basename f)
     then Wine.download_file web fs f = fs
     else Wine.download_file web fs f !! Wine.basename f
          = Some (default (Wine.File (web f)) (fs !! Wine.basename f))) /\
    (forall p, p <> Wine.basename f -> Wine.download_file web fs f !! p = fs !! p) /\
    Wine.download_file web (Wine.download_file web fs f) f = Wine.download_file web fs f.
Proof.
  intros web fs f. split; [apply basename_has_no_slash|].
  destruct (Wine.is_dot_name (Wine.basename f)) eqn:Hdot.
  - assert (Hsame : forall fs0 : Wine.directory, Wine.download_file web fs0 f = fs0).
    { intros fs0. apply map_eq; intros p.
      rewrite download_file_lookup, Hdot. reflexivity. }
    split; [apply Hsame|]. split; [intros p _; rewrite Hsame; reflexivity|].
    rewrite !Hsame. reflexivity.
  - split; [rewrite download_file_lookup, Hdot, decide_True by reflexivity; reflexivity|].
    split.
    + intros p Hp. rewrite download_file_lookup, Hdot, decide_False by exact Hp.
      reflexivity.
    + apply download_file_present. rewrite download_file_lookup, Hdot.
      rewrite decide_True by reflexivity. eauto.
Qed.

(** X12: after the download cell, reading the red-wine table does not fail
    for a missing file: the parser gets the content of the file that was
    already in the working directory if there was one, whatever the server
    holds, and the downloaded content otherwise, and its outcome (a table,
    or its own EmptyDataError or ParserError) is the outcome of the read; a
    subdirectory of that name makes the read raise IsADirectoryError. *)
Theorem read_after_download_returns :
  forall (web : string -> string) (table : Type) (parse : string -> result table)
         (fs : Wine.directory),
    Run.read_csv parse (Wine.download_cell web fs) "winequality-red.csv"
    = match fs !! Wine.red_csv with
      | Some (Wine.File old) => parse old
      | Some Wine.Directory => Raise IsADirectoryError
      | None =>
          parse (web "https://archive.ics.uci.edu/ml/machine-learning-databases/wine-quality/winequality-red.csv")
      end.
Proof.
  intros web table parse fs. unfold Run.read_csv.
  change (Wine.normpath "winequality-red.csv") with Wine.red_csv.
  rewrite download_cell_lookup_red.
  destruct (fs !! Wine.red_csv) as [[old|]|]; reflexivity.
Qed.

Section MoreSplitFacts.
Context {row : Type}.

Lemma omap_lookup_seq (pre df : Wine.frame row) :
  omap (fun i => (pre ++ df) !! i) (seq (length pre) (length df)) = df.
Proof.
  revert pre. induction df as [|x df IH]; intros pre; [reflexivity|].
  cbn [length seq omap list_omap]. rewrite list_lookup_middle by reflexivity.
  f_equal. specialize (IH (pre ++ [x])).
  rewrite <- app_assoc, length_app in IH. cbn in IH.
  replace (length pre + 1) with (S (length pre)) in IH by lia. exact IH.
Qed.

Lemma sample_all_permutation (order : list nat) (df : Wine.frame row) :
  order ≡ₚ seq 0 (length df) -> Wine.sample_all order df ≡ₚ df.
Proof.
  intros Hp. unfold Wine.sample_all. rewrite Hp.
  pose proof (omap_lookup_seq [] df) as H. cbn [app length] in H.
  unfold Wine.frame in *. rewrite H. reflexivity.
Qed.

Lemma reset_index_rows (df : Wine.frame row) : (Wine.reset_index df).*2 = df.*2.
Proof.
  unfold Wine.reset_index. apply snd_zip. rewrite length_seq, length_fmap. lia.
Qed.

End MoreSplitFacts.

(** X13: when the drawn order is a permutation of the row positions, the
    shuffle neither loses nor repeats a row: the rows of [data_tr] followed
    by those of [data_te] are a permutation of the rows read from the file,
    and the test part has as many rows as the training part or one more. *)
Theorem split_keeps_every_row :
  forall (row : Type) (order : list nat) (df : Wine.frame row),
    order ≡ₚ seq 0 (length df) ->
    let data := Wine.shuffle order df in
    (Wine.data_tr data ++ Wine.data_te data)%list.*2 ≡ₚ df.*2 /\
    length data = length df /\
    length (Wine.data_tr data) <= length (Wine.data_te data) /\
    length (Wine.data_te data) <= S (length (Wine.data_tr data)).
Proof.
  intros row order df Hp data.
  assert (Hrows : data.*2 ≡ₚ df.*2).
  { subst data. unfold Wine.shuffle. rewrite reset_index_rows.
    rewrite (sample_all_permutation order df Hp). reflexivity. }
  assert (Hlen : length data = length df).
  { rewrite <- (length_fmap snd data), <- (length_fmap snd df).
    apply Permutation_length, Hrows. }
  rewrite data_tr_take, data_te_drop, take_drop.
  split; [exact Hrows|]. split; [exact Hlen|].
  rewrite length_take, length_drop. unfold Wine.half.
  pose proof (Nat.div_mod_eq (length data) 2) as Hdm.
  pose proof (Nat.mod_upper_bound (length data) 2) as Hub.
  lia.
Qed.

Lemma split_keeps_every_row_witness :
  [2; 0; 1] ≡ₚ seq 0 (length [(7, "a"); (8, "b"); (9, "c")]) /\
  let data := Wine.shuffle [2; 0; 1] [(7, "a"); (8, "b"); (9, "c")] in
  (Wine.data_tr data ++ Wine.data_te data)%list.*2 ≡ₚ [(7, "a"); (8, "b"); (9, "c")].*2 /\
  length data = length [(7, "a"); (8, "b"); (9, "c")] /\
  length (Wine.data_tr data) <= length (Wine.data_te data) /\
  length (Wine.data_te data) <= S (length (Wine.data_tr data)).
Proof.
  assert (H : [2; 0; 1] ≡ₚ seq 0 (length [(7, "a"); (8, "b"); (9, "c")])).
  { cbn. etrans; [apply perm_swap|]. apply perm_skip, perm_swap. }
  split; [exact H|].
  apply (split_keeps_every_row string [2; 0; 1] [(7, "a"); (8, "b"); (9, "c")] H).
Defined.
